(** * ChessVision: the move classification and aggregation pipeline

    A shallow embedding of [ChessReview/main.py] (the PGN pipeline) and
    [ChessReview2/main.py] (the JSON pipeline).  The helper functions
    [detect_game_phase], [get_evaluation_loss_threshold], [is_book_move] and
    [get_phase_rating] are textually the same in both files and are embedded
    once; the two analysis loops differ and are embedded separately, in the
    modules [ChessReview] and [ChessReview2].

    Numbers.  Engine scores are Python [int]s and are embedded as [Z].  Python
    [float]s are IEEE-754 binary64 values and are embedded as [spec_float] with
    the operations of the Standard Library's [SpecFloat] at precision 53 and
    maximal exponent 1024 (round to nearest, ties to even), which is what
    CPython's [+], [-], [*] and [/] on floats compute.

    Strings.  A Python [str] is embedded as the [string] of the bytes of its
    UTF-8 encoding; [str.split()] is embedded as [PyStr.split], which splits
    at every character Python counts as white space.

    External collaborators.  The chess library (python-chess) and the engine
    are not part of the repository.  The board is an interface ([BoardAPI]),
    the engine is an oracle indexed by the number of the call, and the score
    objects are embedded from the library's documented behaviour. *)

From stdpp Require Import base option list strings gmap.
From Stdlib Require Import ZArith Lia Floats Sorted.

Set Warnings "-inexact-float".
Local Open Scope Z_scope.

(** ** Exceptions

    The loops let two exceptions escape: [OverflowError], when an [int] too
    large for a float meets a float operation, and [IndexError], from
    [pre_info.get("pv", [None])[0]] on an empty principal variation.  An
    escaping exception aborts the analysis of the game. *)

Inductive exn : Set := OverflowError | IndexError.

Inductive result (A : Type) : Type :=
  | Ok (a : A)
  | Raise (e : exn).
Arguments Ok {A} a.
Arguments Raise {A} e.

Definition bind {A B : Type} (m : result A) (k : A -> result B) : result B :=
  match m with
  | Ok a => k a
  | Raise e => Raise e
  end.

Declare Scope result_scope.
Delimit Scope result_scope with result.
Notation "'let*' x ':=' m 'in' k" := (bind m (fun x => k))
  (at level 10, x name, m at level 100, k at level 200) : result_scope.
Local Open Scope result_scope.

(** ** Python floats *)

Module PyFloat.

Definition mul : spec_float -> spec_float -> spec_float := SFmul prec emax.
Definition add : spec_float -> spec_float -> spec_float := SFadd prec emax.
Definition sub : spec_float -> spec_float -> spec_float := SFsub prec emax.
Definition div : spec_float -> spec_float -> spec_float := SFdiv prec emax.
Definition ltb : spec_float -> spec_float -> bool := SFltb.
Definition leb : spec_float -> spec_float -> bool := SFleb.

(** A float literal of the source: the binary64 value nearest to the
    decimal, as the Python parser produces it. *)
Definition lit (f : float) : spec_float := Prim2SF f.

Definition zero : spec_float := S754_zero false.
Definition inf : spec_float := S754_infinity false.

(** The binary64 value nearest to an integer. *)
Definition of_Z (z : Z) : spec_float := binary_normalize prec emax z 0 false.

(** The least integer whose nearest binary64 value is not finite. *)
Definition overflow_bound : Z := 2 ^ 1024 - 2 ^ 970.

(** An [int] operand of a float operation is converted first; CPython
    raises [OverflowError] when the nearest binary64 value is not finite,
    that is from [overflow_bound] upwards in absolute value. *)
Definition float_of_int (z : Z) : result spec_float :=
  if Z.abs z <? overflow_bound then Ok (of_Z z) else Raise OverflowError.

(** [max(a, b)] with two arguments: [b] when [b > a], else [a].  An [int]
    argument [0] is carried as the float zero, which compares alike. *)
Definition max (a b : spec_float) : spec_float :=
  if ltb a b then b else a.

(** [n <= f] for an [int] [n] and a float [f]: CPython compares the exact
    values, without converting [n]. *)
Definition int_le (n : Z) (f : spec_float) : bool :=
  match f with
  | S754_nan => false
  | S754_infinity s => negb s
  | S754_zero _ => n <=? 0
  | S754_finite s m e =>
      let v := if s then Z.neg m else Z.pos m in
      if 0 <=? e then n <=? v * 2 ^ e else n * 2 ^ (- e) <=? v
  end.

End PyFloat.

Declare Scope pyfloat_scope.
Delimit Scope pyfloat_scope with py.
Infix "*" := PyFloat.mul : pyfloat_scope.
Infix "+" := PyFloat.add : pyfloat_scope.
Infix "-" := PyFloat.sub : pyfloat_scope.
Infix "/" := PyFloat.div : pyfloat_scope.

(** ** Python strings

    A [str] is held as the bytes of its UTF-8 encoding: the characters up
    to U+007F are one byte each, as in the literals of this file, and the
    others take two to four bytes, the first of them from C2 on and the next
    ones between 80 and BF.  Equality, ["." in s] and [s.endswith(".")] read
    the same on the bytes as on the characters. *)

Module PyStr.

(** The white space of [str.split()], the characters of which
    [str.isspace()] holds: U+0009 to U+000D, U+001C to U+001F, U+0020,
    U+0085, U+00A0, U+1680, U+2000 to U+200A, U+2028, U+2029, U+202F, U+205F
    and U+3000.  [space_width s] is the number of bytes of the white-space
    character [s] starts with, and 0 when it starts with none. *)
Definition space_width (s : string) : nat :=
  match s with
  | String a rest =>
      let a := Ascii.N_of_ascii a in
      if ((9 <=? a) && (a <=? 13) || (28 <=? a) && (a <=? 32))%N then 1%nat
      else
        match rest with
        | String b rest =>
            let b := Ascii.N_of_ascii b in
            if ((a =? 0xC2) && ((b =? 0x85) || (b =? 0xA0)))%N then 2%nat
            else
              match rest with
              | String c _ =>
                  let c := Ascii.N_of_ascii c in
                  if ((a =? 0xE1) && (b =? 0x9A) && (c =? 0x80)
                      || (a =? 0xE2) && (b =? 0x80)
                         && ((0x80 <=? c) && (c <=? 0x8A)
                             || (c =? 0xA8) || (c =? 0xA9) || (c =? 0xAF))
                      || (a =? 0xE2) && (b =? 0x81) && (c =? 0x9F)
                      || (a =? 0xE3) && (b =? 0x80) && (c =? 0x80))%N
                  then 3%nat else 0%nat
              | EmptyString => 0%nat
              end
        | EmptyString => 0%nat
        end
  | EmptyString => 0%nat
  end.

(** The word read so far, when there is one. *)
Definition flush (word : string) : list string :=
  match word with
  | EmptyString => []
  | _ => [word]
  end.

(** [split_go skip word s]: [skip] bytes of a white-space character are
    still to be passed over, [word] is the word read so far. *)
Fixpoint split_go (skip : nat) (word : string) (s : string) : list string :=
  match s with
  | EmptyString => flush word
  | String a rest =>
      match skip with
      | S skip => split_go skip word rest
      | O =>
          match space_width s with
          | O => split_go 0 (word +:+ String a EmptyString) rest
          | S skip => flush word ++ split_go skip EmptyString rest
          end
      end
  end.

(** [s.split()]: the words between runs of white space, none of them
    empty. *)
Definition split (s : string) : list string := split_go 0 EmptyString s.

End PyStr.

(** ** Enumerations *)

Inductive GamePhase : Set := OPENING | MIDDLEGAME | ENDGAME.

Inductive Classification : Set :=
  | BRILLIANT | GREAT | BEST | EXCELLENT | GOOD | INACCURACY
  | MISTAKE | MISS | BLUNDER | BOOK | FORCED.

#[global] Instance GamePhase_eq_dec : EqDecision GamePhase.
Proof. solve_decision. Defined.
#[global] Instance Classification_eq_dec : EqDecision Classification.
Proof. solve_decision. Defined.

Definition centipawn_classifications : list Classification :=
  [BEST; EXCELLENT; GOOD; INACCURACY; MISS; MISTAKE; BLUNDER].

(** Analysis parameters *)
Definition FORCED_WIN_THRESHOLD : Z := 500.
Definition MISS_CENTIPAWN_LOSS : Z := 300.
Definition MISS_MATE_THRESHOLD : Z := 3.
Definition ENDGAME_MATERIAL_THRESHOLD : Z := 24.
Definition QUEEN_VALUE : Z := 9.

(** ** The threshold model *)

(** [a * n**2 + b * n] for float literals [a], [b] and the [int] [n]: the
    two products convert their [int] operand, left to right. *)
Definition quadratic (a b : float) (n : Z) : result spec_float :=
  let* sq := PyFloat.float_of_int (n ^ 2) in
  let* x := PyFloat.float_of_int n in
  Ok (PyFloat.lit a * sq + PyFloat.lit b * x)%py.

Definition get_evaluation_loss_threshold (classif : Classification) (prev_eval : Z)
  : result spec_float :=
  let prev_eval := Z.abs prev_eval in
  match classif with
  | BEST =>
      let* s := quadratic 0.0001 0.0236 prev_eval in
      Ok (PyFloat.max (s - PyFloat.lit 3.7143)%py PyFloat.zero)
  | EXCELLENT =>
      let* s := quadratic 0.0002 0.1231 prev_eval in
      Ok (PyFloat.max (s + PyFloat.lit 27.5455)%py PyFloat.zero)
  | GOOD =>
      let* s := quadratic 0.0002 0.2643 prev_eval in
      Ok (PyFloat.max (s + PyFloat.lit 60.5455)%py PyFloat.zero)
  | INACCURACY =>
      let* s := quadratic 0.0002 0.3624 prev_eval in
      Ok (PyFloat.max (s + PyFloat.lit 108.0909)%py PyFloat.zero)
  | MISS =>
      let* s := quadratic 0.00025 0.38255 prev_eval in
      Ok (PyFloat.max (s + PyFloat.lit 166.9541)%py PyFloat.zero)
  | MISTAKE =>
      let* s := quadratic 0.0003 0.4027 prev_eval in
      Ok (PyFloat.max (s + PyFloat.lit 225.8182)%py PyFloat.zero)
  | _ => Ok PyFloat.inf
  end.

(** ** The chess library: colours, pieces, moves, scores

    [chess.WHITE], [chess.BLACK]; [chess.PIECE_TYPES]; [chess.Move] with its
    [uci()]; [chess.engine.Score] ([Cp], [Mate], [MateGiven]) and [PovScore]. *)

Inductive Color : Set := WHITE | BLACK.

Inductive PieceType : Set := PAWN | KNIGHT | BISHOP | ROOK | QUEEN | KING.

#[global] Instance Color_eq_dec : EqDecision Color.
Proof. solve_decision. Defined.
#[global] Instance PieceType_eq_dec : EqDecision PieceType.
Proof. solve_decision. Defined.

Definition PIECE_TYPES : list PieceType := [PAWN; KNIGHT; BISHOP; ROOK; QUEEN; KING].

(** Squares are numbered 0 (a1) to 63 (h8). *)
Record Move : Set := {
  from_square : nat;
  to_square : nat;
  promotion : option PieceType
}.

#[global] Instance Move_eq_dec : EqDecision Move.
Proof. solve_decision. Defined.

Definition piece_symbol (p : PieceType) : string :=
  match p with
  | PAWN => "p" | KNIGHT => "n" | BISHOP => "b"
  | ROOK => "r" | QUEEN => "q" | KING => "k"
  end.

Definition square_name (sq : nat) : string :=
  String (Ascii.ascii_of_nat (97 + sq mod 8)) (String (Ascii.ascii_of_nat (49 + sq / 8)) EmptyString).

(** [bool(move)]: false for the null move only. *)
Definition Move_bool (m : Move) : bool :=
  negb (Nat.eqb (from_square m) 0 && Nat.eqb (to_square m) 0
        && bool_decide (promotion m = None)).

(** [Move.uci()], without the drops of variants. *)
Definition uci (m : Move) : string :=
  match promotion m with
  | Some p => square_name (from_square m) +:+ square_name (to_square m) +:+ piece_symbol p
  | None =>
      if Move_bool m then square_name (from_square m) +:+ square_name (to_square m)
      else "0000"
  end.

Inductive Score : Set :=
  | Cp (cp : Z)
  | Mate (moves : Z)
  | MateGiven.

Module Score.

(** [Score.score(mate_score=...)], with the mate score given. *)
Definition score (mate_score : Z) (s : Score) : Z :=
  match s with
  | Cp cp => cp
  | Mate moves => if 0 <? moves then mate_score - moves else - mate_score - moves
  | MateGiven => mate_score
  end.

Definition mate (s : Score) : option Z :=
  match s with
  | Cp _ => None
  | Mate moves => Some moves
  | MateGiven => Some 0
  end.

Definition is_mate (s : Score) : bool :=
  match s with
  | Cp _ => false
  | _ => true
  end.

Definition neg (s : Score) : Score :=
  match s with
  | Cp cp => Cp (- cp)
  | Mate moves => if moves =? 0 then MateGiven else Mate (- moves)
  | MateGiven => Mate 0
  end.

End Score.

Record PovScore : Set := {
  relative : Score;
  pov_turn : Color
}.

Module PovScore.

Definition white (s : PovScore) : Score :=
  match pov_turn s with
  | WHITE => relative s
  | BLACK => Score.neg (relative s)
  end.

Definition is_mate (s : PovScore) : bool := Score.is_mate (relative s).

End PovScore.

(** What [engine.analyse] returns.  [info_score] is [info["score"]]; [info_pv]
    is [None] when the dictionary has no ["pv"] key. *)
Record Info : Set := {
  info_score : PovScore;
  info_pv : option (list Move)
}.

(** [x or 0] on an [int]. *)
Definition or_zero (x : Z) : Z := if x =? 0 then 0 else x.

(** [info["score"].white().score(mate_score=10000) or 0] *)
Definition white_eval (info : Info) : Z :=
  or_zero (Score.score 10000 (PovScore.white (info_score info))).

(** [info.get("pv", [None])[0]] *)
Definition first_pv (info : Info) : result (option Move) :=
  match info_pv info with
  | None => Ok None
  | Some [] => Raise IndexError
  | Some (m :: _) => Ok (Some m)
  end.

(** The board, as the loops use it.  [push_san] parses and plays a token and
    raises [ValueError] with a message, leaving the board as it was, when the
    token is not a legal move in the position. *)
Class BoardAPI (Board : Type) := {
  pieces : Board -> PieceType -> Color -> gset nat;
  turn : Board -> Color;
  fullmove_number : Board -> Z;
  fen : Board -> string;
  push : Board -> Move -> Board;
  push_san : Board -> string -> string + Board
}.

(** ** Phase detection, book lookup, stage helpers *)

Section Helpers.
Context {Board : Type} `{BoardAPI Board}.

(** The body of the inner loop of [detect_game_phase], on the pair
    [(total_material, queens)].  The dictionary of values has no [KING]
    key; [KING] leaves the loop body at [continue] before the lookup. *)
Definition count_piece_type (board : Board) (color : Color)
    (acc : Z * Z) (piece_type : PieceType) : Z * Z :=
  let '(total_material, queens) := acc in
  if bool_decide (piece_type = KING) then acc
  else
    let count := Z.of_nat (size (pieces board piece_type color)) in
    let value :=
      match piece_type with
      | PAWN => 1
      | KNIGHT => 3
      | BISHOP => 3
      | ROOK => 5
      | QUEEN => QUEEN_VALUE
      | KING => 0
      end in
    let total_material := total_material + count * value in
    if bool_decide (piece_type = QUEEN) then (total_material, queens + count)
    else (total_material, queens).

Definition detect_game_phase (board : Board) (in_opening : bool) : GamePhase :=
  if in_opening then OPENING
  else
    let '(total_material, queens) :=
      fold_left
        (fun acc color => fold_left (count_piece_type board color) PIECE_TYPES acc)
        [WHITE; BLACK] (0, 0) in
    let endgame_conditions :=
      [ total_material <=? ENDGAME_MATERIAL_THRESHOLD;
        (queens =? 0) && (total_material <=? ENDGAME_MATERIAL_THRESHOLD * 2) ] in
    if existsb id endgame_conditions then ENDGAME else MIDDLEGAME.

(** [" ".join(board.fen().split()[:4])] *)
Definition fen_key (board : Board) : string :=
  String.concat " " (take 4 (PyStr.split (fen board))).

Definition is_book_move (board : Board) (opening_book : gmap string string)
    (max_depth : Z) : option string :=
  if max_depth <? fullmove_number board then None
  else opening_book !! fen_key board.

End Helpers.

(** Truth value of what [is_book_move] returns: [None] and the empty string
    are false. *)
Definition truthy (book_move : option string) : bool :=
  match book_move with
  | Some s => negb (String.eqb s "")
  | None => false
  end.

(** The [for classif in centipawn_classifications] loop: the first candidate
    whose threshold is not below the loss, [None] when the list runs out. *)
Fixpoint centipawn_loop (candidates : list Classification) (pre_eval eval_loss : Z)
  : result (option Classification) :=
  match candidates with
  | [] => Ok None
  | classif :: rest =>
      let* threshold := get_evaluation_loss_threshold classif pre_eval in
      if PyFloat.int_le eval_loss threshold then Ok (Some classif)
      else centipawn_loop rest pre_eval eval_loss
  end.

(** "Initial classification": [BOOK] for a book move, else the loop, with
    [BLUNDER] when the loop leaves [None]. *)
Definition initial_classification (book_move : option string) (pre_eval eval_loss : Z)
  : result Classification :=
  let classification := if truthy book_move then Some BOOK else None in
  match classification with
  | Some c => Ok c
  | None =>
      let* classification := centipawn_loop centipawn_classifications pre_eval eval_loss in
      Ok (default BLUNDER classification)
  end.

(** [score.is_mate() and score.relative.mate() <= MISS_MATE_THRESHOLD] *)
Definition is_forced_win (score : PovScore) : bool :=
  PovScore.is_mate score &&
  match Score.mate (relative score) with
  | Some n => n <=? MISS_MATE_THRESHOLD
  | None => false
  end.

(** "Check for missed opportunities", given the outcome [not_best] of the
    comparison of the played move with the engine's best move. *)
Definition missed_opportunity (classification : Classification) (pre_info : Info)
    (pre_eval eval_loss : Z) (not_best : bool) : Classification :=
  let is_winning := FORCED_WIN_THRESHOLD <=? Z.abs pre_eval in
  let is_forced_win := is_forced_win (info_score pre_info) in
  if is_winning && not_best && ((MISS_CENTIPAWN_LOSS <=? eval_loss) || is_forced_win)
  then MISS else classification.

(** "Check for brilliant moves" *)
Definition brilliant_check (classification : Classification) (pre_eval post_eval : Z)
  : Classification :=
  if bool_decide (classification = BEST) then
    if (pre_eval <? -150) && (150 <=? post_eval) then GREAT
    else if (pre_eval <? -300) && (300 <=? post_eval) then BRILLIANT
    else classification
  else classification.

(** ** Aggregation *)

Definition classification_values (c : Classification) : spec_float :=
  match c with
  | BLUNDER => PyFloat.of_Z 0
  | MISTAKE => PyFloat.lit 0.2
  | MISS => PyFloat.lit 0.3
  | INACCURACY => PyFloat.lit 0.4
  | GOOD => PyFloat.lit 0.65
  | EXCELLENT => PyFloat.lit 0.9
  | BEST => PyFloat.of_Z 1
  | GREAT => PyFloat.of_Z 1
  | BRILLIANT => PyFloat.of_Z 1
  | BOOK => PyFloat.of_Z 1
  | FORCED => PyFloat.of_Z 1
  end.

Definition rating_order : list (Classification * spec_float) :=
  [ (BRILLIANT, PyFloat.lit 0.95);
    (GREAT, PyFloat.lit 0.85);
    (BEST, PyFloat.lit 0.75);
    (EXCELLENT, PyFloat.lit 0.65);
    (GOOD, PyFloat.lit 0.5);
    (INACCURACY, PyFloat.lit 0.35);
    (MISS, PyFloat.lit 0.25);
    (MISTAKE, PyFloat.lit 0.15) ].

Section PhaseRating.
(** Python's builtin [sum] on the quality scores: additions from left to
    right up to CPython 3.11, compensated summation from 3.12.  The rating
    is embedded for any of them. *)
Variable py_sum : list spec_float -> spec_float.

Definition get_phase_rating (classified_moves : list Classification) : Classification :=
  match classified_moves with
  | [] => GOOD
  | _ =>
      let total := py_sum (map classification_values classified_moves) in
      let average := (total / PyFloat.of_Z (Z.of_nat (length classified_moves)))%py in
      match find (fun '(c, t) => PyFloat.leb t average) rating_order with
      | Some (c, _) => c
      | None => BLUNDER
      end
  end.

End PhaseRating.

(** [sum] as the plain left-to-right accumulation, from the [int] [0]. *)
Definition sum_left (xs : list spec_float) : spec_float :=
  fold_left PyFloat.add xs (PyFloat.of_Z 0).

(** ** Move records and accumulators *)

Definition Classification_value (c : Classification) : string :=
  match c with
  | BRILLIANT => "brilliant" | GREAT => "great" | BEST => "best"
  | EXCELLENT => "excellent" | GOOD => "good" | INACCURACY => "inaccuracy"
  | MISTAKE => "mistake" | MISS => "miss" | BLUNDER => "blunder"
  | BOOK => "book" | FORCED => "forced"
  end.

(** An entry of [result["move_analysis"]]: the dictionary of an analysed
    move, or the one of a token that could not be played. *)
Inductive MoveRecord : Set :=
  | Analysed (move_number : Z) (player move : string)
      (evaluation evaluation_loss : spec_float) (classification : string)
  | Invalid (move_number : Z) (player move error : string).

(** [a / b] on [int]s, for [b] other than zero: the binary64 value nearest to
    the quotient, [OverflowError] when that is not finite. *)
Definition int_truediv (a b : Z) : result spec_float :=
  let exact (z : Z) :=
    match z with
    | Z0 => S754_zero false
    | Zpos p => S754_finite false p 0
    | Zneg p => S754_finite true p 0
    end in
  match SFdiv prec emax (exact a) (exact b) with
  | S754_infinity _ => Raise OverflowError
  | q => Ok q
  end.

(** [d[k].append(x)] on a dictionary that has every key. *)
Definition append_at {K A : Type} `{EqDecision K} (d : K -> list A) (k : K) (x : A)
  : K -> list A :=
  fun k' => if decide (k' = k) then d k' ++ [x] else d k'.

(** [token.endswith('.')] *)
Fixpoint endswith_dot (token : string) : bool :=
  match token with
  | EmptyString => false
  | String a EmptyString => Ascii.eqb a (Ascii.ascii_of_nat 46)
  | String _ rest => endswith_dot rest
  end.

(** ** The PGN pipeline: [ChessReview/main.py] *)

Module ChessReview.
Section Loop.
Context {Board : Type} `{BoardAPI Board}.
Variable engine : nat -> Board -> Info.
Variable opening_book : gmap string string.

(** The variables the loop of [analyze_pgn_with_stockfish] updates;
    [calls] counts the requests made to the engine so far. *)
Record State : Type := {
  board : Board;
  calls : nat;
  in_opening : bool;
  classifications : Color -> GamePhase -> list Classification;
  phase_data : GamePhase -> list Classification;
  move_analysis : list MoveRecord
}.

(** Lines 187-211: the classification of one move. *)
Definition classify (book_move : option string) (pre_info : Info)
    (pre_eval post_eval : Z) (move : Move) (best_move : option Move)
  : result Classification :=
  let eval_loss := Z.abs (pre_eval - post_eval) in
  let* classification := initial_classification book_move pre_eval eval_loss in
  let classification :=
    missed_opportunity classification pre_info pre_eval eval_loss
      (bool_decide (Some move <> best_move)) in
  Ok (brilliant_check classification pre_eval post_eval).

(** The phase given to the move played from [st], when the loop body gets
    to it. *)
Definition phase_of (st : State) (move : Move) : GamePhase :=
  detect_game_phase (push (board st) move) (in_opening st).

(** The body of the loop. *)
Definition body (st : State) (move_number : Z) (move : Move) : result State :=
  let pre_info := engine (calls st) (board st) in
  let pre_eval := white_eval pre_info in
  let* best_move := first_pv pre_info in
  let board := push (board st) move in
  let post_info := engine (S (calls st)) board in
  let post_eval := white_eval post_info in
  let book_move := is_book_move board opening_book 8 in
  let current_phase := detect_game_phase board (in_opening st) in
  let in_opening :=
    if negb (truthy book_move) && in_opening st then false else in_opening st in
  let eval_loss := Z.abs (pre_eval - post_eval) in
  let* classification := classify book_move pre_info pre_eval post_eval move best_move in
  let player := if bool_decide (turn board = BLACK) then WHITE else BLACK in
  let classifications :=
    fun p => if decide (p = player)
             then append_at (classifications st p) current_phase classification
             else classifications st p in
  let phase_data := append_at (phase_data st) current_phase classification in
  let* evaluation := int_truediv post_eval 100 in
  let* evaluation_loss := int_truediv eval_loss 100 in
  Ok {| board := board;
        calls := S (S (calls st));
        in_opening := in_opening;
        classifications := classifications;
        phase_data := phase_data;
        move_analysis :=
          move_analysis st ++
          [Analysed move_number
             (if bool_decide (turn board = BLACK) then "White" else "Black")
             (uci move) evaluation evaluation_loss
             (Classification_value classification)] |}.

(** [for move_number, node in enumerate(game.mainline(), start=1)] *)
Fixpoint loop (st : State) (move_number : Z) (mainline : list Move) : result State :=
  match mainline with
  | [] => Ok st
  | move :: rest =>
      let* st := body st move_number move in
      loop st (move_number + 1) rest
  end.

Definition initial (start : Board) : State :=
  {| board := start;
     calls := 0;
     in_opening := true;
     classifications := fun _ _ => [];
     phase_data := fun _ => [];
     move_analysis := [] |}.

(** The loop of [analyze_pgn_with_stockfish] on the game that starts at
    [start] with the moves [mainline]. *)
Definition analyze_pgn_with_stockfish (start : Board) (mainline : list Move)
  : result State :=
  loop (initial start) 1 mainline.

End Loop.
End ChessReview.

(** ** The JSON pipeline: [ChessReview2/main.py] *)

Module ChessReview2.
Section Loop.
Context {Board : Type} `{BoardAPI Board}.
Variable engine : nat -> Board -> Info.
Variable opening_book : gmap string string.

(** The variables the loop of [analyze_json_game_with_stockfish] updates;
    [calls] counts the requests made to the engine so far. *)
Record State : Type := {
  board : Board;
  calls : nat;
  in_opening : bool;
  move_number : Z;
  classifications : Color -> GamePhase -> list Classification;
  phase_data : GamePhase -> list Classification;
  move_analysis : list MoveRecord
}.

(** [best_move.uci() if best_move else None] *)
Definition best_uci (best_move : option Move) : option string :=
  match best_move with
  | Some m => if Move_bool m then Some (uci m) else None
  | None => None
  end.

(** Lines 225-249: the classification of one move. *)
Definition classify (book_move : option string) (pre_info : Info)
    (pre_eval post_eval : Z) (token : string) (best_move : option Move)
  : result Classification :=
  let eval_loss := Z.abs (pre_eval - post_eval) in
  let* classification := initial_classification book_move pre_eval eval_loss in
  let classification :=
    missed_opportunity classification pre_info pre_eval eval_loss
      (bool_decide (Some token <> best_uci best_move)) in
  Ok (brilliant_check classification pre_eval post_eval).

(** The phase given to a move that took the board of [st] to [board'],
    when the loop body gets to it. *)
Definition phase_of (st : State) (board' : Board) : GamePhase :=
  detect_game_phase board' (in_opening st).

(** The body of the inner loop, for one token. *)
Definition body (st : State) (token : string) : result State :=
  let pre_info := engine (calls st) (board st) in
  let pre_eval := white_eval pre_info in
  let* best_move := first_pv pre_info in
  match push_san (board st) token with
  | inl e =>
      Ok {| board := board st;
            calls := S (calls st);
            in_opening := in_opening st;
            move_number := move_number st;
            classifications := classifications st;
            phase_data := phase_data st;
            move_analysis :=
              move_analysis st ++
              [Invalid (move_number st) "unknown" token ("Invalid move: " +:+ e)] |}
  | inr board =>
      let post_info := engine (S (calls st)) board in
      let post_eval := white_eval post_info in
      let book_move := is_book_move board opening_book 8 in
      let current_phase := detect_game_phase board (in_opening st) in
      let in_opening :=
        if negb (truthy book_move) && in_opening st then false else in_opening st in
      let eval_loss := Z.abs (pre_eval - post_eval) in
      let* classification :=
        classify book_move pre_info pre_eval post_eval token best_move in
      let player := if bool_decide (turn board = BLACK) then WHITE else BLACK in
      let classifications :=
        fun p => if decide (p = player)
                 then append_at (classifications st p) current_phase classification
                 else classifications st p in
      let phase_data := append_at (phase_data st) current_phase classification in
      let* evaluation := int_truediv post_eval 100 in
      let* evaluation_loss := int_truediv eval_loss 100 in
      Ok {| board := board;
            calls := S (S (calls st));
            in_opening := in_opening;
            move_number := move_number st + 1;
            classifications := classifications;
            phase_data := phase_data;
            move_analysis :=
              move_analysis st ++
              [Analysed (move_number st)
                 (if bool_decide (player = WHITE) then "White" else "Black")
                 token evaluation evaluation_loss
                 (Classification_value classification)] |}
  end.

(** [for token in move_tokens] *)
Fixpoint token_loop (st : State) (move_tokens : list string) : result State :=
  match move_tokens with
  | [] => Ok st
  | token :: rest =>
      let* st := body st token in
      token_loop st rest
  end.

(** [for move_line in game_json.get("Moves", [])] *)
Fixpoint line_loop (st : State) (moves : list string) : result State :=
  match moves with
  | [] => Ok st
  | move_line :: rest =>
      let tokens := PyStr.split move_line in
      let move_tokens := List.filter (fun token => negb (endswith_dot token)) tokens in
      let* st := token_loop st move_tokens in
      line_loop st rest
  end.

Definition initial (start : Board) : State :=
  {| board := start;
     calls := 0;
     in_opening := true;
     move_number := 1;
     classifications := fun _ _ => [];
     phase_data := fun _ => [];
     move_analysis := [] |}.

(** The loops of [analyze_json_game_with_stockfish] on the ["Moves"] list
    [moves]; [start] is [chess.Board()]. *)
Definition analyze_json_game_with_stockfish (start : Board) (moves : list string)
  : result State :=
  line_loop (initial start) moves.

End Loop.
End ChessReview2.

(** ** A small board, to run the loops

    The loops are embedded over any [BoardAPI].  [Toy] is one: pieces on
    squares, moved without any rule of chess, with a few tokens it can play.
    It stands in for the chess library in the examples, nothing more. *)

Module Toy.

Record Position : Type := {
  placement : list (nat * (PieceType * Color));
  side : Color;
  fullmoves : Z
}.

Definition piece_at (b : Position) (sq : nat) : option (PieceType * Color) :=
  snd <$> List.find (fun e => Nat.eqb (fst e) sq) (placement b).

Definition pieces (b : Position) (pt : PieceType) (c : Color) : gset nat :=
  list_to_set
    (map fst (List.filter (fun e => bool_decide (snd e = (pt, c))) (placement b))).

Definition push (b : Position) (m : Move) : Position :=
  {| placement :=
       match piece_at b (from_square m) with
       | Some pc =>
           (to_square m, pc) ::
           List.filter
             (fun e => negb (Nat.eqb (fst e) (from_square m))
                       && negb (Nat.eqb (fst e) (to_square m)))
             (placement b)
       | None => placement b
       end;
     side := match side b with WHITE => BLACK | BLACK => WHITE end;
     fullmoves := match side b with WHITE => fullmoves b | BLACK => fullmoves b + 1 end |}.

Definition symbol (pc : PieceType * Color) : string :=
  match snd pc with
  | WHITE => "w" +:+ piece_symbol (fst pc)
  | BLACK => "b" +:+ piece_symbol (fst pc)
  end.

(** Six fields separated by blanks, as a FEN has. *)
Definition fen (b : Position) : string :=
  String.concat "/" (map (fun e => symbol (snd e) +:+ square_name (fst e)) (placement b))
  +:+ (match side b with WHITE => " w" | BLACK => " b" end)
  +:+ " KQkq - 0 1".

Definition mv (f t : nat) : Move :=
  {| from_square := f; to_square := t; promotion := None |}.

(** The tokens the toy board knows, with the squares they stand for. *)
Definition san_table : list (string * Move) :=
  [ ("Nf3", mv 6 21); ("d6", mv 51 43); ("e4", mv 12 28); ("e5", mv 52 36);
    ("Nc6", mv 57 42); ("Qxd8", mv 3 59) ].

Definition push_san (b : Position) (token : string) : string + Position :=
  match List.find (fun e => String.eqb (fst e) token) san_table with
  | Some (_, m) =>
      match piece_at b (from_square m) with
      | Some (_, c) =>
          if bool_decide (c = side b) then inr (push b m)
          else inl ("illegal san: " +:+ token)
      | None => inl ("illegal san: " +:+ token)
      end
  | None => inl ("invalid san: " +:+ token)
  end.

#[global] Instance api : BoardAPI Position :=
  Build_BoardAPI Position pieces side fullmoves fen push push_san.

Definition back_rank : list PieceType :=
  [ROOK; KNIGHT; BISHOP; QUEEN; KING; BISHOP; KNIGHT; ROOK].

(** The starting position of chess. *)
Definition start : Position :=
  {| placement :=
       imap (fun i pt => (i, (pt, WHITE))) back_rank ++
       map (fun i => (i, (PAWN, WHITE))) (seq 8 8) ++
       map (fun i => (i, (PAWN, BLACK))) (seq 48 8) ++
       imap (fun i pt => ((56 + i)%nat, (pt, BLACK))) back_rank;
     side := WHITE;
     fullmoves := 1 |}.

(** An engine that answers from a list of scores, by the number of the
    call, with one best move for every position. *)
Definition scripted (scores : list PovScore) (best : option Move)
  : nat -> Position -> Info :=
  fun n _ =>
    {| info_score := default {| relative := Cp 0; pov_turn := WHITE |} (scores !! n);
       info_pv := (fun m => [m]) <$> best |}.

End Toy.
(** ** Notions of the specification, for the statements below *)

(** The candidates of the centipawn stage that have a threshold curve. *)
Definition candidates : list Classification :=
  [BEST; EXCELLENT; GOOD; INACCURACY; MISS; MISTAKE].

(** [c] fits: its threshold at [pre_eval] is at least the loss. *)
Definition fits (pre_eval eval_loss : Z) (c : Classification) : Prop :=
  exists t, get_evaluation_loss_threshold c pre_eval = Ok t /\
            PyFloat.int_le eval_loss t = true.

(** [c] is the first candidate that fits, or [BLUNDER] when none does. *)
Definition first_fit (pre_eval eval_loss : Z) (c : Classification) : Prop :=
  (exists before after,
      candidates = before ++ c :: after /\
      fits pre_eval eval_loss c /\
      forall c', In c' before -> ~ fits pre_eval eval_loss c')
  \/ (c = BLUNDER /\ forall c', In c' candidates -> ~ fits pre_eval eval_loss c').

(** A forced win of the side to move, as the specification words it: a mate
    score in favour of that side, at a distance of at most the threshold. *)
Definition forced_win_for_mover (score : PovScore) : bool :=
  match relative score with
  | Mate n => (0 <? n) && (n <=? MISS_MATE_THRESHOLD)
  | MateGiven => true
  | Cp _ => false
  end.

(** The missed-win condition of the specification. *)
Definition missed_win (score : PovScore) (pre_eval eval_loss : Z) (not_best : bool) : bool :=
  (500 <=? Z.abs pre_eval) && not_best &&
  ((300 <=? eval_loss) || forced_win_for_mover score).

Section Material.
Context {Board : Type} `{BoardAPI Board}.

(** [len(board.pieces(piece_type, color))] *)
Definition count (board : Board) (piece_type : PieceType) (color : Color) : Z :=
  Z.of_nat (size (pieces board piece_type color)).

Definition material_of (board : Board) (color : Color) : Z :=
  1 * count board PAWN color + 3 * count board KNIGHT color
  + 3 * count board BISHOP color + 5 * count board ROOK color
  + 9 * count board QUEEN color.

(** Total material of both colours, kings left out. *)
Definition total_material (board : Board) : Z :=
  material_of board WHITE + material_of board BLACK.

Definition queens (board : Board) : Z :=
  count board QUEEN WHITE + count board QUEEN BLACK.

End Material.

(** ** Classes of float values, for the statements on thresholds *)

(** The float has the sign [s] and is not a NaN. *)
Definition signed (s : bool) (f : spec_float) : Prop :=
  match f with
  | S754_zero s' | S754_infinity s' | S754_finite s' _ _ => s' = s
  | S754_nan => False
  end.

(** A zero, a positive finite value or plus infinity. *)
Definition nonneg (f : spec_float) : Prop :=
  match f with
  | S754_zero _ => True
  | S754_infinity s | S754_finite s _ _ => s = false
  | S754_nan => False
  end.

Definition not_nan (f : spec_float) : Prop :=
  match f with
  | S754_nan => False
  | _ => True
  end.

Definition positive_finite (f : spec_float) : bool :=
  match f with
  | S754_finite false _ _ => true
  | _ => false
  end.

(** The thresholds of the six candidates at [x], in the order of the
    candidate list, when all of them are computed. *)
Definition thresholds_at (x : Z) : option (list spec_float) :=
  let get c := match get_evaluation_loss_threshold c x with
               | Ok t => Some t
               | Raise _ => None
               end in
  mapM get candidates.

(** [a <= b] holds of each float of the list and the next one. *)
Fixpoint nondecreasing (ts : list spec_float) : bool :=
  match ts with
  | a :: (b :: _) as rest => PyFloat.leb a b && nondecreasing rest
  | _ => true
  end.

Definition nondecreasing_at (x : Z) : bool :=
  match thresholds_at x with
  | Some ts => nondecreasing ts && forallb (PyFloat.leb PyFloat.zero) ts
  | None => false
  end.

(** The average meets the threshold [t]: [average >= t]. *)
Definition meets (average : spec_float) (t : float) : bool :=
  PyFloat.leb (PyFloat.lit t) average.

(** A list of phases in which [OPENING] never comes after another phase. *)
Definition opening_never_resumes (phases : list GamePhase) : Prop :=
  forall (i j : nat) (p q : GamePhase),
    (i < j)%nat -> phases !! i = Some p -> phases !! j = Some q ->
    p <> OPENING -> q <> OPENING.

Module PgnTrace.
Section Trace.
Context {Board : Type} `{BoardAPI Board}.
Variable engine : nat -> Board -> Info.
Variable opening_book : gmap string string.

(** The phases given to the moves of a run of the PGN loop, in order, up
    to the end of the moves or to the move at which the run is aborted. *)
Fixpoint phases (st : ChessReview.State) (move_number : Z) (mainline : list Move)
  : list GamePhase :=
  match mainline with
  | [] => []
  | move :: rest =>
      match ChessReview.body engine opening_book st move_number move with
      | Ok st' => ChessReview.phase_of st move :: phases st' (move_number + 1) rest
      | Raise _ => []
      end
  end.

End Trace.
End PgnTrace.

Module JsonTrace.
Section Trace.
Context {Board : Type} `{BoardAPI Board}.
Variable engine : nat -> Board -> Info.
Variable opening_book : gmap string string.

(** The tokens the two nested loops go through, in order. *)
Definition tokens_of (moves : list string) : list string :=
  concat (map (fun move_line =>
                 List.filter (fun token => negb (endswith_dot token))
                   (PyStr.split move_line)) moves).

(** The phases given to the moves of a run of the JSON loop, in order:
    none for a token that cannot be played, and up to the end of the tokens
    or to the token at which the run is aborted. *)
Fixpoint phases (st : ChessReview2.State) (tokens : list string) : list GamePhase :=
  match tokens with
  | [] => []
  | token :: rest =>
      match ChessReview2.body engine opening_book st token with
      | Ok st' =>
          match push_san (ChessReview2.board st) token with
          | inr board' => ChessReview2.phase_of st board' :: phases st' rest
          | inl _ => phases st' rest
          end
      | Raise _ => []
      end
  end.

End Trace.
End JsonTrace.

(** White space other than the blank, for the examples: U+001F, one byte,
    and U+00A0, two bytes. *)
Definition unit_separator : string := String (Ascii.ascii_of_nat 31) "".

Definition no_break_space : string :=
  String (Ascii.ascii_of_nat 194) (String (Ascii.ascii_of_nat 160) "").

(** Engine answers used in the examples. *)
Definition cp_info (cp : Z) (side : Color) (best : option Move) : Info :=
  {| info_score := {| relative := Cp cp; pov_turn := side |};
     info_pv := (fun m => [m]) <$> best |}.

Definition mate_info (n : Z) (side : Color) (best : option Move) : Info :=
  {| info_score := {| relative := Mate n; pov_turn := side |};
     info_pv := (fun m => [m]) <$> best |}.

(** ** Loading the opening book: [load_opening_book]

    The chess library's [push_san] parses the token, plays the move and
    returns it; [ReplayAPI] names the parsing step and the board a new game
    starts from.  The file is taken as the rows its [csv.reader] yields before
    the end of the file or before the exception that ends the reading; no
    row at all stands for a file that cannot be opened. *)

Class ReplayAPI (Board : Type) `{BoardAPI Board} := {
  starting_board : Board;
  parse_san : Board -> string -> string + Move;
  push_san_parse : forall (b : Board) (token : string),
    push_san b token =
    match parse_san b token with
    | inl e => inl e
    | inr m => inr (push b m)
    end
}.

(** ["." in move] *)
Fixpoint contains_dot (move : string) : bool :=
  match move with
  | EmptyString => false
  | String a rest => Ascii.eqb a (Ascii.ascii_of_nat 46) || contains_dot rest
  end.

Section BookLoading.
Context {Board : Type} `{ReplayAPI Board}.

(** The loop [for move in pgn_moves.split()] on one line of the book, from
    the board and the book it has got to: [continue] on a token with a dot,
    [break] at the first token that raises [ValueError]. *)
Fixpoint replay_line (board : Board) (opening_book : gmap string string)
    (moves : list string) : gmap string string :=
  match moves with
  | [] => opening_book
  | move :: rest =>
      if contains_dot move then replay_line board opening_book rest
      else
        match parse_san board move with
        | inl _ => opening_book
        | inr chess_move =>
            let board := push board chess_move in
            let fen := fen_key board in
            replay_line board (<[fen := uci chess_move]> opening_book) rest
        end
  end.

(** The body of [for row in reader]. *)
Definition load_row (opening_book : gmap string string) (row : list string)
  : gmap string string :=
  if (length row <? 3)%nat then opening_book
  else
    match row !! 2%nat with
    | Some pgn_moves => replay_line starting_board opening_book (PyStr.split pgn_moves)
    | None => opening_book
    end.

(** [load_opening_book]: [next(reader)] drops the first row, and raises
    [StopIteration] when there is none, which the outer [except] turns into
    the empty book. *)
Definition load_opening_book (rows : list (list string)) : gmap string string :=
  match rows with
  | [] => ∅
  | _ :: rows => fold_left load_row rows ∅
  end.

(** The positions a line goes through, with the move that led to each: what
    [replay_line] writes, in the order it writes it. *)
Fixpoint visits (board : Board) (moves : list string) : list (string * Move) :=
  match moves with
  | [] => []
  | move :: rest =>
      if contains_dot move then visits board rest
      else
        match parse_san board move with
        | inl _ => []
        | inr chess_move =>
            (fen_key (push board chess_move), chess_move)
            :: visits (push board chess_move) rest
        end
  end.

(** The board at the end of a line all of whose tokens are played (or
    skipped for their dot). *)
Fixpoint line_end (board : Board) (moves : list string) : option Board :=
  match moves with
  | [] => Some board
  | move :: rest =>
      if contains_dot move then line_end board rest
      else
        match parse_san board move with
        | inl _ => None
        | inr chess_move => line_end (push board chess_move) rest
        end
  end.

(** The line of a row of the file, when the row has one. *)
Definition line_of (row : list string) : list string :=
  match row !! 2%nat with
  | Some pgn_moves => PyStr.split pgn_moves
  | None => []
  end.

End BookLoading.

(** ** The report: phase analysis and player summaries *)

Definition GamePhase_value (p : GamePhase) : string :=
  match p with
  | OPENING => "opening"
  | MIDDLEGAME => "middlegame"
  | ENDGAME => "endgame"
  end.

(** The members of the enumerations, in the order [for ... in] goes
    through them. *)
Definition all_phases : list GamePhase := [OPENING; MIDDLEGAME; ENDGAME].

Definition all_classifications : list Classification :=
  [BRILLIANT; GREAT; BEST; EXCELLENT; GOOD; INACCURACY;
   MISTAKE; MISS; BLUNDER; BOOK; FORCED].

(** An entry of [result["phase_analysis"]]. *)
Record PhaseSummary : Set := {
  rating : string;
  move_count : Z
}.

(** [counts[m.value] += 1]; [None] stands for the [KeyError] of a key that
    is not in the dictionary. *)
Definition increment (counts : gmap string Z) (m : Classification)
  : option (gmap string Z) :=
  match counts !! Classification_value m with
  | Some n => Some (<[Classification_value m := n + 1]> counts)
  | None => None
  end.

(** [for m in phase_moves: counts[m.value] += 1] *)
Fixpoint tally (counts : gmap string Z) (phase_moves : list Classification)
  : option (gmap string Z) :=
  match phase_moves with
  | [] => Some counts
  | m :: rest =>
      match increment counts m with
      | Some counts => tally counts rest
      | None => None
      end
  end.

(** The [counts] of one colour: every classification at zero, then the
    moves of each phase tallied. *)
Definition player_counts (by_phase : GamePhase -> list Classification)
  : option (gmap string Z) :=
  let counts : gmap string Z :=
    list_to_map (map (fun c => (Classification_value c, 0)) all_classifications) in
  foldl (fun acc phase =>
           match acc with
           | Some counts => tally counts (by_phase phase)
           | None => None
           end) (Some counts) all_phases.

(** [result["player_summaries"]]: the entry of White is written first, the
    one of Black second, each under the name of the player. *)
Definition player_summaries {K : Type} `{Countable K} (white black : K)
    (classifications : Color -> GamePhase -> list Classification)
  : option (gmap K (gmap string Z)) :=
  match player_counts (classifications WHITE) with
  | Some white_counts =>
      match player_counts (classifications BLACK) with
      | Some black_counts =>
          Some (<[black := black_counts]> (<[white := white_counts]> ∅))
      | None => None
      end
  | None => None
  end.

Section Report.
Variable py_sum : list spec_float -> spec_float.

(** [result["phase_analysis"]]: an entry for each phase that has moves. *)
Definition phase_analysis (phase_data : GamePhase -> list Classification)
  : gmap string PhaseSummary :=
  foldl (fun acc phase =>
           let moves := phase_data phase in
           match moves with
           | [] => acc
           | _ =>
               <[GamePhase_value phase :=
                   {| rating := Classification_value (get_phase_rating py_sum moves);
                      move_count := Z.of_nat (length moves) |}]> acc
           end) ∅ all_phases.

End Report.

(** What the analysis functions return: the records of the moves, the phase
    analysis and the player summaries.  (The JSON pipeline also echoes its
    input under ["game_info"].) *)
Record Report (K : Type) `{Countable K} : Type := {
  report_moves : list MoveRecord;
  report_phases : gmap string PhaseSummary;
  report_players : gmap K (gmap string Z)
}.
Arguments report_moves {K _ _} r.
Arguments report_phases {K _ _} r.
Arguments report_players {K _ _} r.

Section Reports.
Context {Board : Type} `{BoardAPI Board}.
Variable py_sum : list spec_float -> spec_float.

(** The end of [analyze_pgn_with_stockfish], from the state the loop
    leaves; [white] and [black] are [game.headers["White"]] and
    [game.headers["Black"]]. *)
Definition pgn_report (white black : string) (st : ChessReview.State (Board := Board))
  : option (Report string) :=
  let phases := phase_analysis py_sum (ChessReview.phase_data st) in
  match player_summaries white black (ChessReview.classifications st) with
  | Some players =>
      Some {| report_moves := ChessReview.move_analysis st;
              report_phases := phases;
              report_players := players |}
  | None => None
  end.

(** The end of [analyze_json_game_with_stockfish]; [white] and [black] are
    [game_json.get("White")] and [game_json.get("Black")], [None] for a key
    that is not there. *)
Definition json_report (white black : option string)
    (st : ChessReview2.State (Board := Board))
  : option (Report (option string)) :=
  let phases := phase_analysis py_sum (ChessReview2.phase_data st) in
  match player_summaries white black (ChessReview2.classifications st) with
  | Some players =>
      Some {| report_moves := ChessReview2.move_analysis st;
              report_phases := phases;
              report_players := players |}
  | None => None
  end.

End Reports.

(** The toy board as a [ReplayAPI]. *)
Module ToyBook.

Definition parse_san (b : Toy.Position) (token : string) : string + Move :=
  match List.find (fun e => String.eqb (fst e) token) Toy.san_table with
  | Some (_, m) =>
      match Toy.piece_at b (from_square m) with
      | Some (_, c) =>
          if bool_decide (c = Toy.side b) then inr m
          else inl ("illegal san: " +:+ token)
      | None => inl ("illegal san: " +:+ token)
      end
  | None => inl ("invalid san: " +:+ token)
  end.

Lemma push_san_parse (b : Toy.Position) (token : string) :
  push_san b token =
  match parse_san b token with
  | inl e => inl e
  | inr m => inr (push b m)
  end.
Proof.
  cbn [push_san push Toy.api]. unfold Toy.push_san, parse_san.
  destruct (List.find _ Toy.san_table) as [[s m] |]; [| reflexivity].
  destruct (Toy.piece_at b (from_square m)) as [[pt c] |]; [| reflexivity].
  destruct (bool_decide (c = Toy.side b)); reflexivity.
Qed.

#[global] Instance api : ReplayAPI Toy.Position :=
  Build_ReplayAPI Toy.Position Toy.api Toy.start parse_san push_san_parse.

(** A small book file: a header, a row that is too short, and two lines. *)
Definition rows : list (list string) :=
  [ ["eco"; "name"; "pgn"];
    ["A00"; "short row"];
    ["A04"; "Zukertort"; "1. Nf3 d6"];
    ["C20"; "King's pawn"; "1. e4 e5 2. Zz9 Nc6"] ].

End ToyBook.

(** ** Notions for the statements on the rest of the code *)

(** All values of a book are texts of moves. *)
Definition uci_valued (book : gmap string string) : Prop :=
  forall key v, book !! key = Some v -> exists m, v = uci m.

(** How many of the moves have the classification [c]. *)
Definition occurrences (c : Classification) (moves : list Classification) : Z :=
  Z.of_nat (length (List.filter (fun m => bool_decide (m = c)) moves)).

(** [counts] holds the count [f c] under the name of each classification
    [c], and nothing under any other key. *)
Definition counts_of (f : Classification -> Z) (counts : gmap string Z) : Prop :=
  (forall c, counts !! Classification_value c = Some (f c)) /\
  (forall key, is_Some (counts !! key) -> exists c, key = Classification_value c).

(** The moves of one colour, over the three phases. *)
Definition moves_of (by_phase : GamePhase -> list Classification) : list Classification :=
  by_phase OPENING ++ by_phase MIDDLEGAME ++ by_phase ENDGAME.

Definition is_analysed (r : MoveRecord) : bool :=
  match r with
  | Analysed _ _ _ _ _ _ => true
  | Invalid _ _ _ _ => false
  end.

(** The ["move"] field of a record. *)
Definition record_move (r : MoveRecord) : string :=
  match r with
  | Analysed _ _ move _ _ _ => move
  | Invalid _ _ move _ => move
  end.

(** The records are numbered from [n]: an analysed move takes the next
    number, a token that could not be played carries the number of the move
    that comes after it. *)
Fixpoint numbered_from (n : Z) (records : list MoveRecord) : Prop :=
  match records with
  | [] => True
  | Analysed k _ _ _ _ _ :: rest => k = n /\ numbered_from (n + 1) rest
  | Invalid k _ _ _ :: rest => k = n /\ numbered_from n rest
  end.

(** The accumulators agree with each other and with the records: in each
    phase, each classification occurs in [phase_data] as often as in the
    lists of the two players together, and there are as many recorded
    classifications as analysed moves. *)
Definition accumulators_agree
    (classifications : Color -> GamePhase -> list Classification)
    (phase_data : GamePhase -> list Classification)
    (move_analysis : list MoveRecord) : Prop :=
  (forall phase c,
     occurrences c (phase_data phase) =
     occurrences c (classifications WHITE phase)
     + occurrences c (classifications BLACK phase)) /\
  (length (phase_data OPENING) + length (phase_data MIDDLEGAME)
   + length (phase_data ENDGAME)
   = length (List.filter is_analysed move_analysis))%nat.

(** The classifications the loops give: all but [FORCED] and
    [BRILLIANT]. *)
Definition assigned (c : Classification) : Prop :=
  In c [BOOK; BEST; EXCELLENT; GOOD; INACCURACY; MISS; MISTAKE; BLUNDER; GREAT].

(** The place of a candidate in [centipawn_classifications]: the further
    down the list, the worse the move. *)
Definition severity (c : Classification) : nat :=
  match c with
  | BEST => 0
  | EXCELLENT => 1
  | GOOD => 2
  | INACCURACY => 3
  | MISS => 4
  | MISTAKE => 5
  | BLUNDER => 6
  | _ => 0
  end.

(** Two little boards for the examples: kings and a white rook, and the
    kings alone. *)
Definition rook_ending : Toy.Position :=
  {| Toy.placement := [(4%nat, (KING, WHITE)); (60%nat, (KING, BLACK));
                       (0%nat, (ROOK, WHITE))];
     Toy.side := WHITE;
     Toy.fullmoves := 40 |}.

Definition bare_kings : Toy.Position :=
  {| Toy.placement := [(4%nat, (KING, WHITE)); (60%nat, (KING, BLACK))];
     Toy.side := BLACK;
     Toy.fullmoves := 40 |}.

(** A book with one position: the starting position after Nf3. *)
Definition one_line_book : gmap string string :=
  {[ fen_key (push Toy.start (Toy.mv 6 21)) := "Zukertort" ]}.

(** * Properties *)

(** ** Strings *)

(** [split] on lines of moves: blanks, and the white space that is not a
    blank. *)
Example split_examples :
  PyStr.split "1. Nf3 d6" = ["1."; "Nf3"; "d6"] /\
  PyStr.split "  1.   e4 " = ["1."; "e4"] /\
  PyStr.split "" = [] /\
  PyStr.split ("1." +:+ unit_separator +:+ "Nf3" +:+ unit_separator +:+ "d6")
    = ["1."; "Nf3"; "d6"] /\
  PyStr.split ("e4" +:+ no_break_space +:+ "e5" +:+ no_break_space) = ["e4"; "e5"].
Proof. vm_compute. repeat split; reflexivity. Qed.

(** ** Stage 4: the brilliancy upgrade *)

Lemma brilliant_check_other (c : Classification) (pre_eval post_eval : Z) :
  c <> BEST -> brilliant_check c pre_eval post_eval = c.
Proof.
  intros Hc. unfold brilliant_check. case_bool_decide; [contradiction | reflexivity].
Qed.

(** The branch for [BRILLIANT] sits behind the weaker test and is never
    taken: stage 4 gives [BRILLIANT] only to what came in as [BRILLIANT]. *)
Lemma brilliant_check_brilliant (c : Classification) (pre_eval post_eval : Z) :
  brilliant_check c pre_eval post_eval = BRILLIANT -> c = BRILLIANT.
Proof.
  unfold brilliant_check. case_bool_decide as Hc; [| auto]. subst c.
  destruct (pre_eval <? -150) eqn:E1, (150 <=? post_eval) eqn:E2;
    destruct (pre_eval <? -300) eqn:E3, (300 <=? post_eval) eqn:E4;
    cbn [andb]; try discriminate; lia.
Qed.

(** With [BEST] coming in, stage 4 looks at the smaller reversal only. *)
Lemma brilliant_check_best (pre_eval post_eval : Z) :
  brilliant_check BEST pre_eval post_eval =
  if (pre_eval <? -150) && (150 <=? post_eval) then GREAT else BEST.
Proof.
  unfold brilliant_check. rewrite bool_decide_eq_true_2 by reflexivity.
  destruct (pre_eval <? -150) eqn:E1, (150 <=? post_eval) eqn:E2;
    destruct (pre_eval <? -300) eqn:E3, (300 <=? post_eval) eqn:E4;
    cbn [andb]; try reflexivity; lia.
Qed.

(** C1.  The branch for Brilliant is never taken.  Stage 4 tests the
    smaller reversal first and the larger one in its [elif]; whenever the
    larger one holds the smaller one holds too, so the result is [GREAT]
    where the claim has Brilliant: with [BEST] coming in, stage 4 gives
    [GREAT] on the reversal [pre_eval < -150], [post_eval >= 150] and [BEST]
    otherwise, never [BRILLIANT].

    A game in which it happens.  White is to move, the engine scores the
    position at -10066 centipawns with Nf3 as its move, White plays Nf3 and
    the engine scores the new position at 300 centipawns for White.  The
    loss of 10366 is within the threshold of [BEST] at that evaluation, the
    move is the engine's, so the missed-win test leaves [BEST]; both
    reversals hold, and the PGN loop records the move as [GREAT]. *)
Theorem brilliant_branch_is_never_taken :
  (forall pre_eval post_eval,
     pre_eval < -300 -> 300 <= post_eval ->
     brilliant_check BEST pre_eval post_eval = GREAT) /\
  (forall pre_eval post_eval,
     brilliant_check BEST pre_eval post_eval =
     if (pre_eval <? -150) && (150 <=? post_eval) then GREAT else BEST) /\
  let pre_info := cp_info (-10066) WHITE (Some (Toy.mv 6 21)) in
  let played := Toy.mv 6 21 in
  white_eval pre_info = -10066 /\
  initial_classification None (-10066) (Z.abs (-10066 - 300)) = Ok BEST /\
  missed_opportunity BEST pre_info (-10066) (Z.abs (-10066 - 300))
    (bool_decide (Some played <> Some (Toy.mv 6 21))) = BEST /\
  ChessReview.classify None pre_info (-10066) 300 played (Some (Toy.mv 6 21)) = Ok GREAT /\
  (match ChessReview.analyze_pgn_with_stockfish
           (Toy.scripted [ {| relative := Cp (-10066); pov_turn := WHITE |};
                           {| relative := Cp (-300); pov_turn := BLACK |} ]
                         (Some (Toy.mv 6 21)))
           ∅ Toy.start [Toy.mv 6 21] with
   | Ok st => (ChessReview.phase_data st OPENING,
               ChessReview.classifications st WHITE OPENING)
   | Raise _ => ([], [])
   end) = ([GREAT], [GREAT]) /\
  GREAT <> BRILLIANT.
Proof.
  split; [| split].
  - intros pre_eval post_eval Hpre Hpost. rewrite brilliant_check_best.
    replace (pre_eval <? -150) with true by (symmetry; apply Z.ltb_lt; lia).
    replace (150 <=? post_eval) with true by (symmetry; apply Z.leb_le; lia).
    reflexivity.
  - exact brilliant_check_best.
  - vm_compute. repeat split; try reflexivity; discriminate.
Qed.

(** ** Stage 3: the missed-win override *)

(** What the code does: the override fires on the condition as written. *)
Lemma missed_opportunity_fires (c : Classification) (pre_info : Info)
    (pre_eval eval_loss : Z) (not_best : bool) :
  missed_opportunity c pre_info pre_eval eval_loss not_best =
  if (500 <=? Z.abs pre_eval) && not_best &&
     ((300 <=? eval_loss) || is_forced_win (info_score pre_info))
  then MISS else c.
Proof. reflexivity. Qed.

(** On every score that is not a mate against the side to move, the
    condition of the code is the condition of the specification. *)
Lemma is_forced_win_for_mover (score : PovScore) :
  (forall n, relative score = Mate n -> 0 < n) ->
  is_forced_win score = forced_win_for_mover score.
Proof.
  intros Hpos. unfold is_forced_win, forced_win_for_mover, PovScore.is_mate.
  destruct (relative score) as [cp | n |] eqn:E; cbn.
  - reflexivity.
  - specialize (Hpos n eq_refl).
    replace (0 <? n) with true by (symmetry; apply Z.ltb_lt; exact Hpos).
    reflexivity.
  - reflexivity.
Qed.

Lemma missed_opportunity_is_missed_win (c : Classification) (pre_info : Info)
    (pre_eval eval_loss : Z) (not_best : bool) :
  (forall n, relative (info_score pre_info) = Mate n -> 0 < n) ->
  missed_opportunity c pre_info pre_eval eval_loss not_best =
  if missed_win (info_score pre_info) pre_eval eval_loss not_best then MISS else c.
Proof.
  intros Hpos. rewrite missed_opportunity_fires. unfold missed_win.
  rewrite (is_forced_win_for_mover _ Hpos). reflexivity.
Qed.

(** C2 at a forced loss.  White is to move and is being mated in five; the
    played move is not the engine's move and the evaluation moves by one
    centipawn.  The threshold stage gives [BEST] and no side has missed a
    win, yet the override fires, because [relative.mate() <= 3] holds of the
    negative distance [-5], and the move ends as [MISS]. *)
Theorem missed_opportunity_on_forced_loss :
  let pre_info := mate_info (-5) WHITE (Some (Toy.mv 6 21)) in
  let played := Toy.mv 12 28 in
  white_eval pre_info = -9995 /\
  initial_classification None (-9995) (Z.abs (-9995 - -9996)) = Ok BEST /\
  forced_win_for_mover (info_score pre_info) = false /\
  missed_win (info_score pre_info) (-9995) (Z.abs (-9995 - -9996))
    (bool_decide (Some played <> Some (Toy.mv 6 21))) = false /\
  is_forced_win (info_score pre_info) = true /\
  missed_opportunity BEST pre_info (-9995) (Z.abs (-9995 - -9996))
    (bool_decide (Some played <> Some (Toy.mv 6 21))) = MISS /\
  ChessReview.classify None pre_info (-9995) (-9996) played (Some (Toy.mv 6 21)) = Ok MISS.
Proof. vm_compute. repeat split; reflexivity. Qed.

(** The same on a run of the PGN loop: from the starting position of the toy
    board the engine reports a mate in five against White and Nf3 as best
    move, White plays e4 and the engine reports a mate in four for Black.
    The move is recorded as [MISS]. *)
Example pgn_run_on_forced_loss :
  (match ChessReview.analyze_pgn_with_stockfish
           (Toy.scripted [ {| relative := Mate (-5); pov_turn := WHITE |};
                           {| relative := Mate 4; pov_turn := BLACK |} ]
                         (Some (Toy.mv 6 21)))
           ∅ Toy.start [Toy.mv 12 28] with
   | Ok st => (ChessReview.phase_data st OPENING,
               ChessReview.classifications st WHITE OPENING)
   | Raise _ => ([], [])
   end) = ([MISS], [MISS]).
Proof. vm_compute. reflexivity. Qed.

(** The boundary of the specification: at [pre_eval = 500] with a move that
    is not the engine's, a loss of 300 gives [MISS], and a loss of 299
    without a mate score leaves the classification as it was. *)
Lemma missed_opportunity_boundary (c : Classification) (cp : Z) (side : Color)
    (best : option Move) :
  missed_opportunity c (cp_info cp side best) 500 300 true = MISS /\
  missed_opportunity c (cp_info cp side best) 500 299 true = c.
Proof. split; reflexivity. Qed.

(** ** Book moves *)

(** C3, as stated, fails: a book move played from a position the engine
    scores at 600 centipawns, that is not the engine's move and after which
    the score is 200, ends as [MISS], not as [BOOK]. *)
Lemma book_move_is_overridden :
  ChessReview.classify (Some "g1f3") (cp_info 600 WHITE (Some (Toy.mv 6 21)))
    600 200 (Toy.mv 12 28) (Some (Toy.mv 6 21)) = Ok MISS /\
  ChessReview2.classify (Some "g1f3") (cp_info 600 WHITE (Some (Toy.mv 6 21)))
    600 200 "e4" (Some (Toy.mv 6 21)) = Ok MISS /\
  MISS <> BOOK.
Proof. vm_compute. repeat split; try reflexivity; discriminate. Qed.

(** The same on a run of each loop: the position after e4 is in the book,
    the engine scores the starting position at 600 with Nf3 as best move and
    the position after e4 at 200.  The move is recorded as [MISS]. *)
Example book_move_run :
  let book : gmap string string :=
    {[ fen_key (push Toy.start (Toy.mv 12 28)) := "e2e4" ]} in
  let engine :=
    Toy.scripted [ {| relative := Cp 600; pov_turn := WHITE |};
                   {| relative := Cp (-200); pov_turn := BLACK |} ]
                 (Some (Toy.mv 6 21)) in
  truthy (is_book_move (push Toy.start (Toy.mv 12 28)) book 8) = true /\
  (match ChessReview.analyze_pgn_with_stockfish engine book Toy.start [Toy.mv 12 28] with
   | Ok st => (ChessReview.phase_data st OPENING, ChessReview.in_opening st)
   | Raise _ => ([], false)
   end) = ([MISS], true) /\
  (match ChessReview2.analyze_json_game_with_stockfish engine book Toy.start ["1. e4"] with
   | Ok st => (ChessReview2.phase_data st OPENING, ChessReview2.in_opening st)
   | Raise _ => ([], false)
   end) = ([MISS], true).
Proof. vm_compute. repeat split; reflexivity. Qed.

Lemma initial_classification_book (book_move : option string) (pre_eval eval_loss : Z) :
  truthy book_move = true ->
  initial_classification book_move pre_eval eval_loss = Ok BOOK.
Proof. intros Hb. unfold initial_classification. rewrite Hb. reflexivity. Qed.

Lemma missed_opportunity_cases (c : Classification) (pre_info : Info)
    (pre_eval eval_loss : Z) (not_best : bool) :
  let r := missed_opportunity c pre_info pre_eval eval_loss not_best in
  (r = c \/ r = MISS) /\
  (Z.abs pre_eval < 500 \/ not_best = false \/
   (eval_loss < 300 /\ PovScore.is_mate (info_score pre_info) = false) -> r = c) /\
  (500 <= Z.abs pre_eval /\ not_best = true /\ 300 <= eval_loss -> r = MISS).
Proof.
  cbv zeta. rewrite missed_opportunity_fires. unfold is_forced_win.
  destruct (500 <=? Z.abs pre_eval) eqn:E1, not_best,
    (300 <=? eval_loss) eqn:E3, (PovScore.is_mate (info_score pre_info)) eqn:E4;
    cbn [andb orb];
    repeat split; try (left; reflexivity); try (right; reflexivity);
    try (destruct (Score.mate _) as [n|]; [destruct (n <=? _)|]; auto; fail);
    intros; try reflexivity;
    try (destruct (Score.mate _) as [n|]; [destruct (n <=? _)|]; reflexivity);
    try lia; try (intuition (try discriminate; lia)).
Qed.

(** C3, amended.  For a move recognised as a book move, in both pipelines:
    the threshold stage is skipped and the brilliancy upgrade does not apply;
    the move ends as [BOOK] or as [MISS]; it ends as [BOOK] whenever
    [|pre_eval| < 500], or the evaluation loss is below 300 and the score
    before the move is not a mate score; in the PGN pipeline it also ends as
    [BOOK] when the move is the engine's best move, and it ends as [MISS]
    when [|pre_eval| >= 500], the move is not the engine's best move and the
    loss is at least 300. *)
Theorem book_move_final_classification (book_move : option string) (pre_info : Info)
    (pre_eval post_eval : Z) (move : Move) (token : string) (best_move : option Move) :
  truthy book_move = true ->
  let eval_loss := Z.abs (pre_eval - post_eval) in
  let pgn := ChessReview.classify book_move pre_info pre_eval post_eval move best_move in
  let json := ChessReview2.classify book_move pre_info pre_eval post_eval token best_move in
  (pgn = Ok BOOK \/ pgn = Ok MISS) /\
  (json = Ok BOOK \/ json = Ok MISS) /\
  (Z.abs pre_eval < 500 \/
   (eval_loss < 300 /\ PovScore.is_mate (info_score pre_info) = false) ->
   pgn = Ok BOOK /\ json = Ok BOOK) /\
  (best_move = Some move -> pgn = Ok BOOK) /\
  (500 <= Z.abs pre_eval /\ best_move <> Some move /\ 300 <= eval_loss -> pgn = Ok MISS).
Proof.
  intros Hb. cbv zeta. unfold ChessReview.classify, ChessReview2.classify.
  rewrite (initial_classification_book _ _ _ Hb). cbn [bind].
  set (loss := Z.abs (pre_eval - post_eval)).
  pose proof (missed_opportunity_cases BOOK pre_info pre_eval loss
                (bool_decide (Some move <> best_move))) as (Hp1 & Hp2 & Hp3).
  pose proof (missed_opportunity_cases BOOK pre_info pre_eval loss
                (bool_decide (Some token <> ChessReview2.best_uci best_move))) as (Hj1 & Hj2 & _).
  assert (Hbc : forall c, c = BOOK \/ c = MISS ->
                          brilliant_check c pre_eval post_eval = c).
  { intros c [-> | ->]; apply brilliant_check_other; discriminate. }
  repeat split.
  - destruct Hp1 as [E | E]; rewrite E, Hbc; auto.
  - destruct Hj1 as [E | E]; rewrite E, Hbc; auto.
  - rewrite Hp2 by tauto. rewrite Hbc; auto.
  - rewrite Hj2 by tauto. rewrite Hbc; auto.
  - intros ->. rewrite Hp2, Hbc; auto.
    right; left. apply bool_decide_eq_false. intros Hne. apply Hne. reflexivity.
  - intros (H1 & H2 & H3). rewrite Hp3, Hbc; auto.
    repeat split; auto. apply bool_decide_eq_true. congruence.
Qed.

Lemma book_move_final_classification_witness :
  truthy (Some "g1f3") = true /\
  ChessReview.classify (Some "g1f3") (cp_info 30 WHITE (Some (Toy.mv 6 21)))
    30 25 (Toy.mv 6 21) (Some (Toy.mv 6 21)) = Ok BOOK.
Proof.
  assert (Hb : truthy (Some "g1f3") = true) by reflexivity.
  split; [exact Hb |].
  destruct (book_move_final_classification (Some "g1f3")
              (cp_info 30 WHITE (Some (Toy.mv 6 21))) 30 25 (Toy.mv 6 21) "Nf3"
              (Some (Toy.mv 6 21)) Hb) as (_ & _ & _ & Hbest & _).
  exact (Hbest eq_refl).
Defined.

(** ** The two pipelines *)

(** The classifications of the two loop bodies differ only through the
    comparison with the engine's best move. *)
Lemma classify_same_comparison (book_move : option string) (pre_info : Info)
    (pre_eval post_eval : Z) (move : Move) (token : string) (best_move : option Move) :
  bool_decide (Some token <> ChessReview2.best_uci best_move) =
  bool_decide (Some move <> best_move) ->
  ChessReview2.classify book_move pre_info pre_eval post_eval token best_move =
  ChessReview.classify book_move pre_info pre_eval post_eval move best_move.
Proof.
  intros Hcmp. unfold ChessReview2.classify, ChessReview.classify.
  rewrite Hcmp. reflexivity.
Qed.

(** C4 on one game.  The game is the single move Nf3 from the starting
    position, given to the PGN loop as the move g1f3 and to the JSON loop as
    the line ["1. Nf3"]; the engine answers the same to both: 600 centipawns
    for White with g1f3 as best move before the move, 250 after it.  The
    played move is the engine's best move.  The PGN loop compares moves and
    records [INACCURACY]; the JSON loop compares the token ["Nf3"] with the
    text ["g1f3"] of the best move, takes the move for another one and
    records [MISS]. *)
Theorem pipelines_disagree_on_best_move :
  let engine :=
    Toy.scripted [ {| relative := Cp 600; pov_turn := WHITE |};
                   {| relative := Cp (-250); pov_turn := BLACK |} ]
                 (Some (Toy.mv 6 21)) in
  push_san Toy.start "Nf3" = inr (push Toy.start (Toy.mv 6 21)) /\
  uci (Toy.mv 6 21) = "g1f3" /\
  (match ChessReview.analyze_pgn_with_stockfish engine ∅ Toy.start [Toy.mv 6 21] with
   | Ok st => ChessReview.phase_data st OPENING
   | Raise _ => []
   end) = [INACCURACY] /\
  (match ChessReview2.analyze_json_game_with_stockfish engine ∅ Toy.start ["1. Nf3"] with
   | Ok st => ChessReview2.phase_data st OPENING
   | Raise _ => []
   end) = [MISS] /\
  ChessReview.classify None (engine 0%nat Toy.start) 600 250
    (Toy.mv 6 21) (Some (Toy.mv 6 21)) = Ok INACCURACY /\
  ChessReview2.classify None (engine 0%nat Toy.start) 600 250
    "Nf3" (Some (Toy.mv 6 21)) = Ok MISS.
Proof. vm_compute. repeat split; reflexivity. Qed.

(** ** Floats: signs through rounding *)

Lemma shr_1_nonneg (mrs : shr_record) : 0 <= shr_m mrs -> 0 <= shr_m (shr_1 mrs).
Proof.
  destruct mrs as [m r s]. cbn. destruct m as [|[p|p|]|p]; cbn; lia.
Qed.

Lemma iter_pos_preserves {A : Type} (P : A -> Prop) (f : A -> A) :
  (forall x, P x -> P (f x)) -> forall p x, P x -> P (iter_pos f p x).
Proof.
  intros Hf p. induction p as [p IH | p IH |]; intros x Hx; cbn; auto.
Qed.

Lemma shr_nonneg (mrs : shr_record) (e n : Z) :
  0 <= shr_m mrs -> 0 <= shr_m (fst (shr mrs e n)).
Proof.
  intros Hm. unfold shr. destruct n; cbn [fst]; auto.
  apply (iter_pos_preserves (fun x => 0 <= shr_m x)); auto using shr_1_nonneg.
Qed.

Lemma shr_fexp_nonneg (m e : Z) (l : location) :
  0 <= m -> 0 <= shr_m (fst (shr_fexp prec emax m e l)).
Proof.
  intros Hm. unfold shr_fexp. apply shr_nonneg.
  destruct l as [|[]]; cbn; exact Hm.
Qed.

Lemma round_nearest_even_nonneg (m : Z) (l : location) :
  0 <= m -> 0 <= round_nearest_even m l.
Proof.
  intros Hm. unfold round_nearest_even.
  destruct l as [|[]]; try destruct (Z.even m); lia.
Qed.

Lemma binary_round_aux_signed (sx : bool) (m e : Z) (l : location) :
  0 <= m -> signed sx (binary_round_aux prec emax sx m e l).
Proof.
  intros Hm. unfold binary_round_aux.
  pose proof (shr_fexp_nonneg m e l Hm) as H1.
  destruct (shr_fexp prec emax m e l) as [mrs' e'] eqn:E1. cbn [fst] in H1.
  pose proof (shr_fexp_nonneg _ e' loc_Exact
                (round_nearest_even_nonneg (shr_m mrs') (loc_of_shr_record mrs') H1)) as H2.
  destruct (shr_fexp prec emax (round_nearest_even _ _) e' loc_Exact) as [mrs'' e''] eqn:E2.
  cbn [fst] in H2.
  destruct (shr_m mrs'') as [|p|p]; cbn.
  - reflexivity.
  - destruct (e'' <=? emax - prec); reflexivity.
  - lia.
Qed.

Lemma binary_round_signed (sx : bool) (m : positive) (e : Z) :
  signed sx (binary_round prec emax sx m e).
Proof.
  unfold binary_round.
  destruct (shl_align m e _) as [mz ez]. apply binary_round_aux_signed. lia.
Qed.

Lemma signed_false_nonneg (f : spec_float) : signed false f -> nonneg f.
Proof. destruct f; cbn; auto. Qed.

Lemma signed_not_nan (s : bool) (f : spec_float) : signed s f -> not_nan f.
Proof. destruct f; cbn; auto. Qed.

Lemma nonneg_not_nan (f : spec_float) : nonneg f -> not_nan f.
Proof. destruct f; cbn; auto. Qed.

Lemma binary_normalize_not_nan (z e : Z) :
  not_nan (binary_normalize prec emax z e false).
Proof.
  destruct z; cbn [binary_normalize]; [exact I | |];
    eapply signed_not_nan, binary_round_signed.
Qed.

Lemma of_Z_nonneg (z : Z) : 0 <= z -> nonneg (PyFloat.of_Z z).
Proof.
  intros Hz. unfold PyFloat.of_Z. destruct z; cbn [binary_normalize]; [exact I | | lia].
  apply signed_false_nonneg, binary_round_signed.
Qed.

Lemma mul_positive_nonneg (a b : spec_float) :
  positive_finite a = true -> nonneg b -> nonneg (a * b)%py.
Proof.
  destruct a as [| | |[] ma ea]; try discriminate. intros _.
  destruct b as [sb|sb| |sb mb eb]; cbn; try tauto.
  intros ->. apply signed_false_nonneg, binary_round_aux_signed. lia.
Qed.

Lemma add_nonneg (a b : spec_float) : nonneg a -> nonneg b -> nonneg (a + b)%py.
Proof.
  destruct a as [sa|sa| |sa ma ea], b as [sb|sb| |sb mb eb]; cbn; try tauto;
    try (intros -> ->; cbn; reflexivity);
    try (destruct sa, sb; cbn; tauto).
  intros -> ->. cbn.
  apply signed_false_nonneg, binary_round_signed.
Qed.

Lemma sub_not_nan (a b : spec_float) :
  nonneg a -> positive_finite b = true -> not_nan (a - b)%py.
Proof.
  destruct b as [| | |[] mb eb]; try discriminate. intros Ha _.
  destruct a as [sa|sa| |sa ma ea]; cbn in *; try tauto.
  apply binary_normalize_not_nan.
Qed.

Lemma leb_zero_nonneg (a : spec_float) : nonneg a -> PyFloat.leb PyFloat.zero a = true.
Proof. destruct a as [sa|sa| |sa ma ea]; cbn; try tauto; intros ->; reflexivity. Qed.

Lemma leb_zero_max (a : spec_float) :
  not_nan a -> PyFloat.leb PyFloat.zero (PyFloat.max a PyFloat.zero) = true.
Proof.
  intros Ha. unfold PyFloat.max. destruct (PyFloat.ltb a PyFloat.zero) eqn:E.
  - reflexivity.
  - destruct a as [sa|sa| |sa ma ea]; cbn in *; try tauto; destruct sa; try reflexivity;
      discriminate.
Qed.

(** ** The threshold model *)

Lemma overflow_bound_large : 2 ^ 64 < PyFloat.overflow_bound.
Proof. reflexivity. Qed.

(** The bound is where the conversion of the model leaves the finite
    values. *)
Lemma overflow_bound_is_first_infinite :
  PyFloat.of_Z PyFloat.overflow_bound = S754_infinity false /\
  positive_finite (PyFloat.of_Z (PyFloat.overflow_bound - 1)) = true.
Proof. split; vm_compute; reflexivity. Qed.

Lemma float_of_int_cases (z : Z) :
  (Z.abs z < PyFloat.overflow_bound /\ PyFloat.float_of_int z = Ok (PyFloat.of_Z z)) \/
  (PyFloat.overflow_bound <= Z.abs z /\ PyFloat.float_of_int z = Raise OverflowError).
Proof.
  unfold PyFloat.float_of_int.
  destruct (Z.abs z <? PyFloat.overflow_bound) eqn:E; [left | right]; split;
    try reflexivity; lia.
Qed.

Lemma quadratic_cases (a b : float) (n : Z) :
  0 <= n ->
  (n ^ 2 < PyFloat.overflow_bound /\
   quadratic a b n =
   Ok (PyFloat.lit a * PyFloat.of_Z (n ^ 2) + PyFloat.lit b * PyFloat.of_Z n)%py) \/
  (PyFloat.overflow_bound <= n ^ 2 /\ quadratic a b n = Raise OverflowError).
Proof.
  intros Hn. unfold quadratic.
  pose proof overflow_bound_large as HB.
  assert (Hsq : 0 <= n ^ 2) by nia.
  destruct (float_of_int_cases (n ^ 2)) as [[H1 ->] | [H1 ->]]; cbn [bind].
  - destruct (float_of_int_cases n) as [[H2 ->] | [H2 _]]; cbn [bind].
    + left. split; [lia | reflexivity].
    + exfalso. nia.
  - right. split; [lia | reflexivity].
Qed.

Lemma quadratic_nonneg (a b : float) (n : Z) (s : spec_float) :
  positive_finite (PyFloat.lit a) = true -> positive_finite (PyFloat.lit b) = true ->
  0 <= n -> quadratic a b n = Ok s -> nonneg s.
Proof.
  intros Ha Hb Hn Hq.
  destruct (quadratic_cases a b n Hn) as [[_ E] | [_ E]]; rewrite E in Hq;
    [| discriminate].
  injection Hq as <-.
  apply add_nonneg; apply mul_positive_nonneg; auto; apply of_Z_nonneg; nia.
Qed.

Lemma threshold_abs (c : Classification) (pre_eval : Z) :
  get_evaluation_loss_threshold c pre_eval =
  get_evaluation_loss_threshold c (Z.abs pre_eval).
Proof.
  unfold get_evaluation_loss_threshold. rewrite Z.abs_idemp. reflexivity.
Qed.

Lemma abs_square (z : Z) : Z.abs z ^ 2 = z ^ 2.
Proof. rewrite !Z.pow_2_r. apply Z.abs_square. Qed.

(** A threshold of a candidate is computed unless the square of the
    evaluation is out of the floats, and is then at least zero. *)
Lemma threshold_nonneg (c : Classification) (pre_eval : Z) :
  In c candidates ->
  match get_evaluation_loss_threshold c pre_eval with
  | Ok t => pre_eval ^ 2 < PyFloat.overflow_bound /\ PyFloat.leb PyFloat.zero t = true
  | Raise e => e = OverflowError /\ PyFloat.overflow_bound <= pre_eval ^ 2
  end.
Proof.
  intros Hc. unfold get_evaluation_loss_threshold.
  assert (Habs : 0 <= Z.abs pre_eval) by lia.
  rewrite <- (abs_square pre_eval).
  cbn in Hc.
  destruct Hc as [<- | [<- | [<- | [<- | [<- | [<- | []]]]]]];
    match goal with
    | |- context [quadratic ?a ?b _] =>
        pose proof (quadratic_nonneg a b (Z.abs pre_eval)) as Hnn;
        destruct (quadratic_cases a b (Z.abs pre_eval) Habs) as [[Hlt E] | [Hge E]];
        rewrite E in *; cbn [bind];
        [ specialize (Hnn _ eq_refl eq_refl Habs eq_refl); split; [exact Hlt |]
        | split; [reflexivity | exact Hge] ]
    end.
  - apply leb_zero_max, sub_not_nan; [exact Hnn | reflexivity].
  - apply leb_zero_max, nonneg_not_nan, add_nonneg; [exact Hnn | reflexivity].
  - apply leb_zero_max, nonneg_not_nan, add_nonneg; [exact Hnn | reflexivity].
  - apply leb_zero_max, nonneg_not_nan, add_nonneg; [exact Hnn | reflexivity].
  - apply leb_zero_max, nonneg_not_nan, add_nonneg; [exact Hnn | reflexivity].
  - apply leb_zero_max, nonneg_not_nan, add_nonneg; [exact Hnn | reflexivity].
Qed.

Lemma nondecreasing_upto_2000 :
  forallb nondecreasing_at (map Z.of_nat (seq 0 2001)) = true.
Proof. vm_compute. reflexivity. Qed.

Lemma nondecreasing_at_abs (pre_eval : Z) :
  -2000 <= pre_eval <= 2000 -> nondecreasing_at (Z.abs pre_eval) = true.
Proof.
  intros Hr.
  pose proof nondecreasing_upto_2000 as Hall.
  rewrite forallb_forall in Hall. apply Hall.
  apply in_map_iff. exists (Z.to_nat (Z.abs pre_eval)). split; [lia |].
  apply in_seq. lia.
Qed.

(** C6.  For each of the six candidates the threshold, wherever it is
    computed, is at least zero, and it is computed for every evaluation
    whose square is a finite float (otherwise the conversion raises
    [OverflowError]).  For every evaluation from -2000 to 2000 centipawns the
    six thresholds are computed and are non-decreasing along BEST, EXCELLENT,
    GOOD, INACCURACY, MISS, MISTAKE. *)
Theorem thresholds_nonneg_and_ordered :
  (forall c pre_eval, In c candidates ->
     match get_evaluation_loss_threshold c pre_eval with
     | Ok t => PyFloat.leb PyFloat.zero t = true
     | Raise e => e = OverflowError /\ PyFloat.overflow_bound <= pre_eval ^ 2
     end) /\
  (forall pre_eval, -2000 <= pre_eval <= 2000 ->
     exists t1 t2 t3 t4 t5 t6,
       get_evaluation_loss_threshold BEST pre_eval = Ok t1 /\
       get_evaluation_loss_threshold EXCELLENT pre_eval = Ok t2 /\
       get_evaluation_loss_threshold GOOD pre_eval = Ok t3 /\
       get_evaluation_loss_threshold INACCURACY pre_eval = Ok t4 /\
       get_evaluation_loss_threshold MISS pre_eval = Ok t5 /\
       get_evaluation_loss_threshold MISTAKE pre_eval = Ok t6 /\
       PyFloat.leb t1 t2 = true /\ PyFloat.leb t2 t3 = true /\
       PyFloat.leb t3 t4 = true /\ PyFloat.leb t4 t5 = true /\
       PyFloat.leb t5 t6 = true).
Proof.
  split.
  - intros c pre_eval Hc. pose proof (threshold_nonneg c pre_eval Hc) as Ht.
    destruct (get_evaluation_loss_threshold c pre_eval); tauto.
  - intros pre_eval Hr.
    pose proof (nondecreasing_at_abs pre_eval Hr) as Hc.
    unfold nondecreasing_at, thresholds_at, candidates in Hc.
    rewrite (threshold_abs BEST), (threshold_abs EXCELLENT), (threshold_abs GOOD),
      (threshold_abs INACCURACY), (threshold_abs MISS), (threshold_abs MISTAKE).
    cbn -[get_evaluation_loss_threshold PyFloat.leb PyFloat.zero] in Hc.
    destruct (get_evaluation_loss_threshold BEST (Z.abs pre_eval)) as [t1|];
      [| discriminate Hc].
    destruct (get_evaluation_loss_threshold EXCELLENT (Z.abs pre_eval)) as [t2|];
      [| discriminate Hc].
    destruct (get_evaluation_loss_threshold GOOD (Z.abs pre_eval)) as [t3|];
      [| discriminate Hc].
    destruct (get_evaluation_loss_threshold INACCURACY (Z.abs pre_eval)) as [t4|];
      [| discriminate Hc].
    destruct (get_evaluation_loss_threshold MISS (Z.abs pre_eval)) as [t5|];
      [| discriminate Hc].
    destruct (get_evaluation_loss_threshold MISTAKE (Z.abs pre_eval)) as [t6|];
      [| discriminate Hc].
    cbn -[PyFloat.leb PyFloat.zero] in Hc.
    exists t1, t2, t3, t4, t5, t6.
    repeat match goal with
           | Hb : (_ && _) = true |- _ => apply andb_prop in Hb; destruct Hb
           end.
    repeat split; assumption.
Qed.

Lemma thresholds_nonneg_and_ordered_witness :
  (-2000 <= 600 <= 2000) /\
  exists t1 t2, get_evaluation_loss_threshold BEST 600 = Ok t1 /\
                get_evaluation_loss_threshold EXCELLENT 600 = Ok t2 /\
                PyFloat.leb t1 t2 = true.
Proof.
  assert (Hr : -2000 <= 600 <= 2000) by lia.
  split; [exact Hr |].
  destruct (proj2 thresholds_nonneg_and_ordered 600 Hr)
    as (t1 & t2 & t3 & t4 & t5 & t6 & E1 & E2 & _ & _ & _ & _ & L12 & _).
  exists t1, t2. repeat split; assumption.
Defined.

(** ** Stage 2: the centipawn classification *)

Lemma centipawn_loop_app (l1 l2 : list Classification) (pre_eval eval_loss : Z) :
  centipawn_loop (l1 ++ l2) pre_eval eval_loss =
  match centipawn_loop l1 pre_eval eval_loss with
  | Ok None => centipawn_loop l2 pre_eval eval_loss
  | r => r
  end.
Proof.
  induction l1 as [| c l1 IH]; cbn [app centipawn_loop]; [reflexivity |].
  destruct (get_evaluation_loss_threshold c pre_eval) as [t | e]; cbn [bind];
    [| reflexivity].
  destruct (PyFloat.int_le eval_loss t); [reflexivity | exact IH].
Qed.

Lemma centipawn_loop_first (cands : list Classification) (pre_eval eval_loss : Z) :
  (forall c, In c cands -> exists t, get_evaluation_loss_threshold c pre_eval = Ok t) ->
  (exists before c after,
      cands = before ++ c :: after /\
      fits pre_eval eval_loss c /\
      (forall c', In c' before -> ~ fits pre_eval eval_loss c') /\
      centipawn_loop cands pre_eval eval_loss = Ok (Some c))
  \/ ((forall c', In c' cands -> ~ fits pre_eval eval_loss c') /\
      centipawn_loop cands pre_eval eval_loss = Ok None).
Proof.
  induction cands as [| c cands IH]; intros Hdef.
  - right. split; [intros c' [] | reflexivity].
  - destruct (Hdef c (or_introl eq_refl)) as [t Et].
    cbn [centipawn_loop]. rewrite Et. cbn [bind].
    destruct (PyFloat.int_le eval_loss t) eqn:Ele.
    + left. exists [], c, cands. repeat split.
      * exists t. split; assumption.
      * intros c' [].
    + assert (Hc : ~ fits pre_eval eval_loss c).
      { intros (t' & Et' & Ele'). rewrite Et in Et'. injection Et' as <-. congruence. }
      destruct IH as [(before & c0 & after & -> & Hfit & Hnot & Hloop) | [Hnot Hloop]].
      * intros c' Hin. apply Hdef. right. exact Hin.
      * left. exists (c :: before), c0, after. repeat split; auto.
        intros c' [<- | Hin]; auto.
      * right. split; auto. intros c' [<- | Hin]; auto.
Qed.

Lemma initial_classification_not_book (book_move : option string) (pre_eval eval_loss : Z) :
  truthy book_move = false ->
  initial_classification book_move pre_eval eval_loss =
  initial_classification None pre_eval eval_loss.
Proof. intros Hb. unfold initial_classification. rewrite Hb. reflexivity. Qed.

(** C5.  For a move that is not a book move, both loops take the
    evaluation loss [|pre_eval - post_eval|] into stage 2, and stage 2
    returns the first of BEST, EXCELLENT, GOOD, INACCURACY, MISS, MISTAKE
    whose threshold at [pre_eval] is at least the loss, and [BLUNDER] when
    none is.  It returns for every evaluation whose square is a finite float;
    beyond, the first threshold raises [OverflowError]. *)
Theorem centipawn_stage_first_fit (book_move : option string) (pre_info : Info)
    (pre_eval post_eval : Z) (move : Move) (token : string) (best_move : option Move) :
  truthy book_move = false ->
  let eval_loss := Z.abs (pre_eval - post_eval) in
  let stage2 := initial_classification book_move pre_eval eval_loss in
  match stage2 with
  | Ok c => pre_eval ^ 2 < PyFloat.overflow_bound /\ first_fit pre_eval eval_loss c
  | Raise e => e = OverflowError /\ PyFloat.overflow_bound <= pre_eval ^ 2
  end /\
  ChessReview.classify book_move pre_info pre_eval post_eval move best_move =
    (let* c := stage2 in
     Ok (brilliant_check
           (missed_opportunity c pre_info pre_eval eval_loss
              (bool_decide (Some move <> best_move))) pre_eval post_eval)) /\
  ChessReview2.classify book_move pre_info pre_eval post_eval token best_move =
    (let* c := stage2 in
     Ok (brilliant_check
           (missed_opportunity c pre_info pre_eval eval_loss
              (bool_decide (Some token <> ChessReview2.best_uci best_move)))
           pre_eval post_eval)).
Proof.
  intros Hb. cbv zeta. split; [| split; reflexivity].
  rewrite (initial_classification_not_book _ _ _ Hb).
  set (loss := Z.abs (pre_eval - post_eval)).
  unfold initial_classification. cbn [truthy].
  change centipawn_classifications with (candidates ++ [BLUNDER]).
  rewrite centipawn_loop_app.
  destruct (Z.lt_ge_cases (pre_eval ^ 2) PyFloat.overflow_bound) as [Hlt | Hge].
  - assert (Hdef : forall c, In c candidates ->
                             exists t, get_evaluation_loss_threshold c pre_eval = Ok t).
    { intros c Hc. pose proof (threshold_nonneg c pre_eval Hc) as Ht.
      destruct (get_evaluation_loss_threshold c pre_eval) as [t | e]; [eauto |].
      destruct Ht as [_ Ht]. lia. }
    destruct (centipawn_loop_first candidates pre_eval loss Hdef)
      as [(before & c & after & Hsplit & Hfit & Hnot & ->) | [Hnot ->]].
    + split; [exact Hlt |]. left. exists before, after. auto.
    + cbn [centipawn_loop].
      change (get_evaluation_loss_threshold BLUNDER pre_eval) with (Ok PyFloat.inf).
      cbn [bind PyFloat.int_le PyFloat.inf negb default].
      split; [exact Hlt |]. right. auto.
  - pose proof (threshold_nonneg BEST pre_eval (or_introl eq_refl)) as Ht.
    unfold candidates. cbn [centipawn_loop].
    destruct (get_evaluation_loss_threshold BEST pre_eval) as [t | e]; [lia |].
    cbn [bind]. exact Ht.
Qed.

Lemma centipawn_stage_first_fit_witness :
  truthy None = false /\
  match initial_classification None 600 (Z.abs (600 - 250)) with
  | Ok c => 600 ^ 2 < PyFloat.overflow_bound /\ first_fit 600 (Z.abs (600 - 250)) c
  | Raise e => e = OverflowError /\ PyFloat.overflow_bound <= 600 ^ 2
  end.
Proof.
  assert (Hb : truthy None = false) by reflexivity.
  split; [exact Hb |].
  destruct (centipawn_stage_first_fit None (cp_info 600 WHITE None) 600 250
              (Toy.mv 6 21) "Nf3" None Hb) as [Hs _].
  exact Hs.
Defined.

(** ** Phase detection *)

Section PhaseDetection.
Context {Board : Type} `{BoardAPI Board}.

Lemma count_piece_type_eq (board : Board) (color : Color) (t q : Z)
    (piece_type : PieceType) :
  count_piece_type board color (t, q) piece_type =
  match piece_type with
  | PAWN => (t + count board PAWN color * 1, q)
  | KNIGHT => (t + count board KNIGHT color * 3, q)
  | BISHOP => (t + count board BISHOP color * 3, q)
  | ROOK => (t + count board ROOK color * 5, q)
  | QUEEN => (t + count board QUEEN color * 9, q + count board QUEEN color)
  | KING => (t, q)
  end.
Proof.
  unfold count_piece_type, count, QUEEN_VALUE.
  destruct piece_type; repeat case_bool_decide; try discriminate; try congruence;
    reflexivity.
Qed.

(** The two nested loops of [detect_game_phase] leave the total material
    and the number of queens. *)
Lemma material_loops (board : Board) :
  fold_left
    (fun acc color => fold_left (count_piece_type board color) PIECE_TYPES acc)
    [WHITE; BLACK] (0, 0)
  = (total_material board, queens board).
Proof.
  unfold PIECE_TYPES. cbn [fold_left].
  rewrite !count_piece_type_eq.
  unfold total_material, queens, material_of. f_equal; lia.
Qed.

(** C7.  [detect_game_phase] returns [OPENING] whenever the flag is set.
    With the flag clear it returns [ENDGAME] exactly when the total
    material of both colours (pawn 1, knight 3, bishop 3, rook 5, queen 9,
    kings left out) is at most 24, or there is no queen and it is at most
    48; it returns [MIDDLEGAME] otherwise. *)
Theorem detect_game_phase_cases (board : Board) :
  detect_game_phase board true = OPENING /\
  (detect_game_phase board false = ENDGAME <->
     total_material board <= 24 \/ (queens board = 0 /\ total_material board <= 48)) /\
  (detect_game_phase board false = MIDDLEGAME <->
     ~ (total_material board <= 24 \/ (queens board = 0 /\ total_material board <= 48))).
Proof.
  split; [reflexivity |].
  unfold detect_game_phase. rewrite material_loops.
  unfold ENDGAME_MATERIAL_THRESHOLD. cbn [existsb id].
  destruct (total_material board <=? 24) eqn:E1,
           (queens board =? 0) eqn:E2,
           (total_material board <=? 24 * 2) eqn:E3;
    cbn [orb andb]; split; split; intros; try reflexivity; try discriminate; lia.
Qed.

Lemma detect_game_phase_opening (board : Board) (in_opening : bool) :
  detect_game_phase board in_opening = OPENING <-> in_opening = true.
Proof.
  destruct in_opening; [split; reflexivity |].
  unfold detect_game_phase.
  destruct (fold_left _ _ _) as [t q].
  destruct (existsb _ _); split; discriminate.
Qed.

End PhaseDetection.

(** On the starting position, with the flag clear: 78 points of material
    and two queens, a middlegame. *)
Example detect_game_phase_start :
  total_material Toy.start = 78 /\ queens Toy.start = 2 /\
  detect_game_phase Toy.start false = MIDDLEGAME /\
  detect_game_phase Toy.start true = OPENING.
Proof. vm_compute. repeat split; reflexivity. Qed.

(** ** Aggregation *)

(** C8.  [get_phase_rating] returns [GOOD] on the empty list.  On a list
    that is not empty it divides the sum of the quality scores (0 for
    Blunder, 0.2 Mistake, 0.3 Miss, 0.4 Inaccuracy, 0.65 Good, 0.9 Excellent,
    1 for Best, Great, Brilliant, Book and Forced) by the number of moves,
    and returns the first classification of the table Brilliant 0.95, Great
    0.85, Best 0.75, Excellent 0.65, Good 0.5, Inaccuracy 0.35, Miss 0.25,
    Mistake 0.15 whose threshold the average meets, and [BLUNDER] when it
    meets none.  This holds whatever summation [sum] performs. *)
Theorem get_phase_rating_table (py_sum : list spec_float -> spec_float)
    (m : Classification) (ms : list Classification) :
  let average :=
    (py_sum (map classification_values (m :: ms))
     / PyFloat.of_Z (Z.of_nat (length (m :: ms))))%py in
  let r := get_phase_rating py_sum (m :: ms) in
  get_phase_rating py_sum [] = GOOD /\
  map classification_values
    [BLUNDER; MISTAKE; MISS; INACCURACY; GOOD; EXCELLENT;
     BEST; GREAT; BRILLIANT; BOOK; FORCED]
  = [PyFloat.of_Z 0; PyFloat.lit 0.2; PyFloat.lit 0.3; PyFloat.lit 0.4;
     PyFloat.lit 0.65; PyFloat.lit 0.9;
     PyFloat.of_Z 1; PyFloat.of_Z 1; PyFloat.of_Z 1; PyFloat.of_Z 1; PyFloat.of_Z 1] /\
  (meets average 0.95 = true -> r = BRILLIANT) /\
  (meets average 0.95 = false -> meets average 0.85 = true -> r = GREAT) /\
  (meets average 0.95 = false -> meets average 0.85 = false ->
   meets average 0.75 = true -> r = BEST) /\
  (meets average 0.95 = false -> meets average 0.85 = false ->
   meets average 0.75 = false -> meets average 0.65 = true -> r = EXCELLENT) /\
  (meets average 0.95 = false -> meets average 0.85 = false ->
   meets average 0.75 = false -> meets average 0.65 = false ->
   meets average 0.5 = true -> r = GOOD) /\
  (meets average 0.95 = false -> meets average 0.85 = false ->
   meets average 0.75 = false -> meets average 0.65 = false ->
   meets average 0.5 = false -> meets average 0.35 = true -> r = INACCURACY) /\
  (meets average 0.95 = false -> meets average 0.85 = false ->
   meets average 0.75 = false -> meets average 0.65 = false ->
   meets average 0.5 = false -> meets average 0.35 = false ->
   meets average 0.25 = true -> r = MISS) /\
  (meets average 0.95 = false -> meets average 0.85 = false ->
   meets average 0.75 = false -> meets average 0.65 = false ->
   meets average 0.5 = false -> meets average 0.35 = false ->
   meets average 0.25 = false -> meets average 0.15 = true -> r = MISTAKE) /\
  (meets average 0.95 = false -> meets average 0.85 = false ->
   meets average 0.75 = false -> meets average 0.65 = false ->
   meets average 0.5 = false -> meets average 0.35 = false ->
   meets average 0.25 = false -> meets average 0.15 = false -> r = BLUNDER).
Proof.
  cbv zeta. split; [reflexivity |]. split; [reflexivity |].
  unfold get_phase_rating, rating_order, meets.
  set (average := (py_sum _ / _)%py).
  cbn [find].
  repeat split; intros;
    repeat match goal with
           | Hm : PyFloat.leb _ average = _ |- _ => rewrite Hm; clear Hm
           end;
    reflexivity.
Qed.

Lemma get_phase_rating_table_witness :
  meets (sum_left (map classification_values [BEST; BLUNDER])
         / PyFloat.of_Z (Z.of_nat (length [BEST; BLUNDER])))%py 0.5 = true /\
  get_phase_rating sum_left [BEST; BLUNDER] = GOOD.
Proof.
  split; [vm_compute; reflexivity |].
  destruct (get_phase_rating_table sum_left BEST [BLUNDER])
    as (_ & _ & _ & _ & _ & _ & Hgood & _).
  apply Hgood; vm_compute; reflexivity.
Defined.

(** The rating with the sum taken from left to right: one Good move rates
    as Excellent (0.65 meets 0.65), a Best and a Blunder as Good, and a Miss,
    a Mistake and a Blunder as Mistake. *)
Example get_phase_rating_examples :
  get_phase_rating sum_left [GOOD] = EXCELLENT /\
  get_phase_rating sum_left [BEST; BLUNDER] = GOOD /\
  get_phase_rating sum_left [MISS; MISTAKE; BLUNDER] = MISTAKE /\
  get_phase_rating sum_left [BLUNDER; BLUNDER] = BLUNDER /\
  get_phase_rating sum_left [] = GOOD.
Proof. vm_compute. repeat split; reflexivity. Qed.

(** ** The loops *)

Lemma bind_ok {A B : Type} (m : result A) (k : A -> result B) (b : B) :
  bind m k = Ok b -> exists a, m = Ok a /\ k a = Ok b.
Proof. destruct m as [a | e]; cbn; [eauto | discriminate]. Qed.

(** Takes a completed chain of binds apart, step by step. *)
Ltac bind_inv Hb :=
  repeat (let a := fresh "a" in
          let Ha := fresh "Ha" in
          apply bind_ok in Hb as (a & Ha & Hb)).

Lemma append_at_same {K A : Type} `{EqDecision K} (d : K -> list A) (k : K) (x : A) :
  append_at d k x k = d k ++ [x].
Proof. unfold append_at. case_decide; [reflexivity | contradiction]. Qed.

Lemma append_at_other {K A : Type} `{EqDecision K} (d : K -> list A) (k k' : K) (x : A) :
  k' <> k -> append_at d k x k' = d k'.
Proof. intros Hne. unfold append_at. case_decide; [contradiction | reflexivity]. Qed.

Lemma opening_never_resumes_nil : opening_never_resumes [].
Proof. intros i j p q _ Hi. discriminate Hi. Qed.

Lemma opening_never_resumes_cons (p : GamePhase) (phases : list GamePhase) :
  (p <> OPENING -> Forall (fun q => q <> OPENING) phases) ->
  opening_never_resumes phases ->
  opening_never_resumes (p :: phases).
Proof.
  intros Hhead Htail i j p' q Hij Hi Hj Hp'.
  destruct j as [| j]; [lia |]. cbn in Hj.
  destruct i as [| i]; cbn in Hi.
  - injection Hi as <-.
    specialize (Hhead Hp'). rewrite Forall_forall in Hhead.
    apply Hhead. eapply list_elem_of_lookup_2. exact Hj.
  - apply (Htail i j p' q); auto. lia.
Qed.

Section PgnLoop.
Context {Board : Type} `{BoardAPI Board}.
Variable engine : nat -> Board -> Info.
Variable opening_book : gmap string string.

Local Abbreviation body := (ChessReview.body engine opening_book).
Local Abbreviation phases := (PgnTrace.phases engine opening_book).

(** What a completed pass through the body of the PGN loop leaves. *)
Lemma pgn_body_ok (st st' : ChessReview.State) (move_number : Z) (move : Move) :
  body st move_number move = Ok st' ->
  let board' := push (ChessReview.board st) move in
  let book_move := is_book_move board' opening_book 8 in
  exists c,
    ChessReview.board st' = board' /\
    ChessReview.in_opening st' =
      (if negb (truthy book_move) && ChessReview.in_opening st then false
       else ChessReview.in_opening st) /\
    ChessReview.phase_data st' =
      append_at (ChessReview.phase_data st) (ChessReview.phase_of st move) c.
Proof.
  unfold ChessReview.body. intros Hb. bind_inv Hb.
  injection Hb as <-. cbv zeta. eexists. cbn. auto.
Qed.

Lemma pgn_flag_stays_clear (st st' : ChessReview.State) (move_number : Z) (move : Move) :
  body st move_number move = Ok st' ->
  ChessReview.in_opening st = false -> ChessReview.in_opening st' = false.
Proof.
  intros Hb Hf. apply pgn_body_ok in Hb as (c & _ & Hflag & _).
  rewrite Hflag, Hf. destruct (negb _); reflexivity.
Qed.

Lemma pgn_phases_after_opening (mainline : list Move) :
  forall (st : ChessReview.State) (move_number : Z),
    ChessReview.in_opening st = false ->
    Forall (fun q => q <> OPENING) (phases st move_number mainline).
Proof.
  induction mainline as [| move rest IH]; intros st n Hf; cbn [PgnTrace.phases].
  - constructor.
  - destruct (body st n move) as [st' | e] eqn:Hb; [| constructor].
    constructor.
    + unfold ChessReview.phase_of. rewrite detect_game_phase_opening. congruence.
    + apply IH. eapply pgn_flag_stays_clear; eauto.
Qed.

Lemma pgn_opening_never_resumes (mainline : list Move) :
  forall (st : ChessReview.State) (move_number : Z),
    opening_never_resumes (phases st move_number mainline).
Proof.
  induction mainline as [| move rest IH]; intros st n; cbn [PgnTrace.phases].
  - apply opening_never_resumes_nil.
  - destruct (body st n move) as [st' | e] eqn:Hb; [| apply opening_never_resumes_nil].
    apply opening_never_resumes_cons; [| apply IH].
    intros Hp. apply pgn_phases_after_opening.
    eapply pgn_flag_stays_clear; [exact Hb |].
    unfold ChessReview.phase_of in Hp. rewrite detect_game_phase_opening in Hp.
    destruct (ChessReview.in_opening st); congruence.
Qed.

End PgnLoop.

Section JsonLoop.
Context {Board : Type} `{BoardAPI Board}.
Variable engine : nat -> Board -> Info.
Variable opening_book : gmap string string.

Local Abbreviation jbody := (ChessReview2.body engine opening_book).
Local Abbreviation jphases := (JsonTrace.phases engine opening_book).

(** What a completed pass through the body of the JSON loop leaves, for a
    token that was played. *)
Lemma json_body_ok (st st' : ChessReview2.State) (token : string) (board' : Board) :
  jbody st token = Ok st' ->
  push_san (ChessReview2.board st) token = inr board' ->
  let book_move := is_book_move board' opening_book 8 in
  exists c,
    ChessReview2.board st' = board' /\
    ChessReview2.in_opening st' =
      (if negb (truthy book_move) && ChessReview2.in_opening st then false
       else ChessReview2.in_opening st) /\
    ChessReview2.phase_data st' =
      append_at (ChessReview2.phase_data st) (ChessReview2.phase_of st board') c /\
    ChessReview2.move_number st' = ChessReview2.move_number st + 1.
Proof.
  unfold ChessReview2.body. intros Hb Hp.
  apply bind_ok in Hb as (best & _ & Hb). rewrite Hp in Hb. bind_inv Hb.
  injection Hb as <-. cbv zeta. eexists. cbn. auto.
Qed.

(** The same for a token that could not be played. *)
Lemma json_body_invalid (st : ChessReview2.State) (token e : string) :
  push_san (ChessReview2.board st) token = inl e ->
  info_pv (engine (ChessReview2.calls st) (ChessReview2.board st)) <> Some [] ->
  jbody st token =
  Ok {| ChessReview2.board := ChessReview2.board st;
        ChessReview2.calls := S (ChessReview2.calls st);
        ChessReview2.in_opening := ChessReview2.in_opening st;
        ChessReview2.move_number := ChessReview2.move_number st;
        ChessReview2.classifications := ChessReview2.classifications st;
        ChessReview2.phase_data := ChessReview2.phase_data st;
        ChessReview2.move_analysis :=
          ChessReview2.move_analysis st ++
          [Invalid (ChessReview2.move_number st) "unknown" token
             ("Invalid move: " +:+ e)] |}.
Proof.
  intros Hp Hpv. unfold ChessReview2.body, first_pv.
  destruct (info_pv _) as [[| m pv] |]; [contradiction | |]; cbn [bind];
    rewrite Hp; reflexivity.
Qed.

Lemma json_flag_stays_clear (st st' : ChessReview2.State) (token : string) :
  jbody st token = Ok st' ->
  ChessReview2.in_opening st = false -> ChessReview2.in_opening st' = false.
Proof.
  intros Hb Hf.
  destruct (push_san (ChessReview2.board st) token) as [e | board'] eqn:Hp.
  - unfold ChessReview2.body in Hb.
    apply bind_ok in Hb as (best & _ & Hb). rewrite Hp in Hb.
    injection Hb as <-. exact Hf.
  - apply (json_body_ok _ _ _ _ Hb) in Hp as (c & _ & Hflag & _).
    rewrite Hflag, Hf. destruct (negb _); reflexivity.
Qed.

Lemma json_phases_after_opening (tokens : list string) :
  forall st : ChessReview2.State,
    ChessReview2.in_opening st = false ->
    Forall (fun q => q <> OPENING) (jphases st tokens).
Proof.
  induction tokens as [| token rest IH]; intros st Hf; cbn [JsonTrace.phases].
  - constructor.
  - destruct (jbody st token) as [st' | e] eqn:Hb; [| constructor].
    pose proof (json_flag_stays_clear _ _ _ Hb Hf) as Hf'.
    destruct (push_san (ChessReview2.board st) token) as [e | board']; [auto |].
    constructor; [| auto].
    unfold ChessReview2.phase_of. rewrite detect_game_phase_opening. congruence.
Qed.

Lemma json_opening_never_resumes (tokens : list string) :
  forall st : ChessReview2.State, opening_never_resumes (jphases st tokens).
Proof.
  induction tokens as [| token rest IH]; intros st; cbn [JsonTrace.phases].
  - apply opening_never_resumes_nil.
  - destruct (jbody st token) as [st' | e] eqn:Hb; [| apply opening_never_resumes_nil].
    destruct (push_san (ChessReview2.board st) token) as [e | board']; [apply IH |].
    apply opening_never_resumes_cons; [| apply IH].
    intros Hp. apply json_phases_after_opening.
    eapply json_flag_stays_clear; [exact Hb |].
    unfold ChessReview2.phase_of in Hp. rewrite detect_game_phase_opening in Hp.
    destruct (ChessReview2.in_opening st); congruence.
Qed.

Lemma token_loop_app (tokens1 tokens2 : list string) :
  forall st : ChessReview2.State,
    ChessReview2.token_loop engine opening_book st (tokens1 ++ tokens2) =
    let* st' := ChessReview2.token_loop engine opening_book st tokens1 in
    ChessReview2.token_loop engine opening_book st' tokens2.
Proof.
  induction tokens1 as [| token rest IH]; intros st; cbn [app ChessReview2.token_loop].
  - reflexivity.
  - destruct (jbody st token) as [st' | e]; cbn [bind]; [apply IH | reflexivity].
Qed.

(** The two nested loops go through the tokens of all lines in order. *)
Lemma line_loop_tokens (moves : list string) :
  forall st : ChessReview2.State,
    ChessReview2.line_loop engine opening_book st moves =
    ChessReview2.token_loop engine opening_book st (JsonTrace.tokens_of moves).
Proof.
  induction moves as [| move_line rest IH]; intros st.
  - reflexivity.
  - cbn [ChessReview2.line_loop]. unfold JsonTrace.tokens_of. cbn [map concat].
    rewrite token_loop_app.
    destruct (ChessReview2.token_loop _ _ st _) as [st' | e]; cbn [bind];
      [apply IH | reflexivity].
Qed.

End JsonLoop.

(** C9.  In both loops the flag [in_opening], once cleared, stays cleared.
    The phase given to a move is the one under which the move is recorded,
    and it is [OPENING] exactly when the flag is still set; hence in the
    phases given to the moves of one game, in order, [OPENING] never comes
    after another phase. *)
Theorem opening_never_resumes_in_a_game {Board : Type} `{BoardAPI Board}
    (engine : nat -> Board -> Info) (opening_book : gmap string string) :
  (forall st move_number move st',
     ChessReview.body engine opening_book st move_number move = Ok st' ->
     (ChessReview.in_opening st = false -> ChessReview.in_opening st' = false) /\
     (ChessReview.phase_of st move = OPENING <-> ChessReview.in_opening st = true) /\
     exists c, ChessReview.phase_data st' =
               append_at (ChessReview.phase_data st) (ChessReview.phase_of st move) c) /\
  (forall st token st',
     ChessReview2.body engine opening_book st token = Ok st' ->
     (ChessReview2.in_opening st = false -> ChessReview2.in_opening st' = false) /\
     (forall board',
        push_san (ChessReview2.board st) token = inr board' ->
        (ChessReview2.phase_of st board' = OPENING <-> ChessReview2.in_opening st = true) /\
        exists c, ChessReview2.phase_data st' =
                  append_at (ChessReview2.phase_data st)
                    (ChessReview2.phase_of st board') c)) /\
  (forall st move_number mainline,
     opening_never_resumes (PgnTrace.phases engine opening_book st move_number mainline)) /\
  (forall st moves,
     ChessReview2.line_loop engine opening_book st moves =
     ChessReview2.token_loop engine opening_book st (JsonTrace.tokens_of moves) /\
     opening_never_resumes
       (JsonTrace.phases engine opening_book st (JsonTrace.tokens_of moves))).
Proof.
  split; [| split; [| split]].
  - intros st n move st' Hb. split; [| split].
    + eapply pgn_flag_stays_clear; eauto.
    + apply detect_game_phase_opening.
    + apply pgn_body_ok in Hb as (c & _ & _ & Hd). eauto.
  - intros st token st' Hb. split.
    + eapply json_flag_stays_clear; eauto.
    + intros board' Hp. split.
      * apply detect_game_phase_opening.
      * apply (json_body_ok _ _ _ _ _ _ Hb) in Hp as (c & _ & _ & Hd & _). eauto.
  - intros st n mainline. apply pgn_opening_never_resumes.
  - intros st moves. split.
    + apply line_loop_tokens.
    + apply json_opening_never_resumes.
Qed.

Lemma opening_never_resumes_in_a_game_witness :
  JsonTrace.phases (Toy.scripted [] None) ∅ (ChessReview2.initial Toy.start)
    (JsonTrace.tokens_of ["1. Nf3 d6"; "2. e4 e5"])
  = [OPENING; MIDDLEGAME; MIDDLEGAME; MIDDLEGAME] /\
  opening_never_resumes
    (JsonTrace.phases (Toy.scripted [] None) ∅ (ChessReview2.initial Toy.start)
       (JsonTrace.tokens_of ["1. Nf3 d6"; "2. e4 e5"])).
Proof.
  split; [vm_compute; reflexivity |].
  destruct (opening_never_resumes_in_a_game (Toy.scripted [] None) ∅)
    as (_ & _ & _ & Hjson).
  exact (proj2 (Hjson (ChessReview2.initial Toy.start) ["1. Nf3 d6"; "2. e4 e5"])).
Defined.

(** C10.  In the JSON loop, a token that cannot be played gets a record
    with the move number, the player ["unknown"], the token and an error
    text; the board, the flag, the move number and the accumulators per
    player and per phase are as before, and the loop goes on with the tokens
    that follow.  (The engine is asked before the token is tried; an empty
    principal variation in its answer would raise [IndexError] there.) *)
Theorem invalid_token_is_recorded_and_skipped {Board : Type} `{BoardAPI Board}
    (engine : nat -> Board -> Info) (opening_book : gmap string string)
    (st : ChessReview2.State) (token e : string) (rest : list string) :
  push_san (ChessReview2.board st) token = inl e ->
  info_pv (engine (ChessReview2.calls st) (ChessReview2.board st)) <> Some [] ->
  exists st',
    ChessReview2.body engine opening_book st token = Ok st' /\
    ChessReview2.move_analysis st' =
      ChessReview2.move_analysis st ++
      [Invalid (ChessReview2.move_number st) "unknown" token ("Invalid move: " +:+ e)] /\
    ChessReview2.board st' = ChessReview2.board st /\
    ChessReview2.in_opening st' = ChessReview2.in_opening st /\
    ChessReview2.move_number st' = ChessReview2.move_number st /\
    ChessReview2.classifications st' = ChessReview2.classifications st /\
    ChessReview2.phase_data st' = ChessReview2.phase_data st /\
    ChessReview2.token_loop engine opening_book st (token :: rest) =
    ChessReview2.token_loop engine opening_book st' rest.
Proof.
  intros Hp Hpv. eexists. split; [apply (json_body_invalid _ _ _ _ _ Hp Hpv) |].
  cbn [ChessReview2.move_analysis ChessReview2.board ChessReview2.in_opening
       ChessReview2.move_number ChessReview2.classifications ChessReview2.phase_data].
  repeat split.
  cbn [ChessReview2.token_loop]. rewrite (json_body_invalid _ _ _ _ _ Hp Hpv).
  reflexivity.
Qed.

Lemma invalid_token_is_recorded_and_skipped_witness :
  push_san Toy.start "Zz9" = inl "invalid san: Zz9" /\
  info_pv (Toy.scripted [] None 0%nat Toy.start) <> Some [] /\
  exists st',
    ChessReview2.body (Toy.scripted [] None) ∅ (ChessReview2.initial Toy.start) "Zz9"
    = Ok st' /\
    ChessReview2.move_analysis st' =
      [Invalid 1 "unknown" "Zz9" "Invalid move: invalid san: Zz9"] /\
    ChessReview2.board st' = Toy.start.
Proof.
  assert (Hp : push_san (ChessReview2.board (ChessReview2.initial Toy.start)) "Zz9"
               = inl "invalid san: Zz9") by reflexivity.
  assert (Hpv : info_pv (Toy.scripted [] None
                           (ChessReview2.calls (ChessReview2.initial Toy.start))
                           (ChessReview2.board (ChessReview2.initial Toy.start)))
                <> Some []) by discriminate.
  split; [exact Hp |]. split; [exact Hpv |].
  destruct (invalid_token_is_recorded_and_skipped (Toy.scripted [] None) ∅
              (ChessReview2.initial Toy.start) "Zz9" "invalid san: Zz9" [] Hp Hpv)
    as (st' & Hb & Hrec & Hboard & _).
  exists st'. repeat split; assumption.
Defined.

(** A game with a token in the middle that cannot be played: two moves,
    the bad token, one more move.  Four records come out, the third one the
    error record, and the move after it carries the number 3. *)
Example json_run_with_invalid_token :
  (match ChessReview2.analyze_json_game_with_stockfish (Toy.scripted [] None) ∅
           Toy.start ["1. Nf3 d6"; "2. Zz9 e4"] with
   | Ok st =>
       (map (fun r => match r with
                      | Analysed n p mv _ _ c => (n, p, mv, c)
                      | Invalid n p mv e => (n, p, mv, e)
                      end) (ChessReview2.move_analysis st),
        ChessReview2.move_number st)
   | Raise _ => ([], 0)
   end)
  = ([ (1, "White", "Nf3", "best"); (2, "Black", "d6", "best");
       (3, "unknown", "Zz9", "Invalid move: invalid san: Zz9");
       (3, "White", "e4", "best") ], 4).
Proof. vm_compute. reflexivity. Qed.

(** A line whose tokens are separated by U+001F gives the same records as
    the line with blanks. *)
Example json_run_with_unit_separator :
  (match ChessReview2.analyze_json_game_with_stockfish (Toy.scripted [] None) ∅
           Toy.start ["1." +:+ unit_separator +:+ "Nf3" +:+ unit_separator +:+ "d6"] with
   | Ok st => map record_move (ChessReview2.move_analysis st)
   | Raise _ => []
   end) = ["Nf3"; "d6"].
Proof. vm_compute. reflexivity. Qed.


(** * The rest of the code: the opening book, the report, and the loops as a whole *)

(** * More of the code

    ** The opening book *)

Lemma uci_nonempty (m : Move) : uci m <> "".
Proof.
  unfold uci, square_name.
  destruct (promotion m); [| destruct (Move_bool m)]; cbv [String.append];
    discriminate.
Qed.

Lemma find_app_first {A : Type} (f : A -> bool) (l1 l2 : list A) :
  List.find f (l1 ++ l2) =
  match List.find f l1 with
  | Some x => Some x
  | None => List.find f l2
  end.
Proof.
  induction l1 as [| x l1 IH]; cbn [app List.find]; [reflexivity |].
  destruct (f x); [reflexivity | exact IH].
Qed.

Section BookLoadingFacts.
Context {Board : Type} `{ReplayAPI Board}.

(** What a line writes: insertions in the order of [visits]. *)
Lemma replay_line_visits (moves : list string) :
  forall (board : Board) (book : gmap string string),
    replay_line board book moves =
    foldl (fun acc e => <[fst e := uci (snd e)]> acc) book (visits board moves).
Proof.
  induction moves as [| move rest IH]; intros board book; cbn [replay_line visits].
  - reflexivity.
  - destruct (contains_dot move); [apply IH |].
    destruct (parse_san board move) as [e | m]; [reflexivity |].
    cbn [foldl fst snd]. apply IH.
Qed.

Lemma foldl_insert_lookup (es : list (string * Move)) :
  forall (book : gmap string string) (key : string),
    foldl (fun acc e => <[fst e := uci (snd e)]> acc) book es !! key =
    match List.find (fun e => String.eqb (fst e) key) (rev es) with
    | Some e => Some (uci (snd e))
    | None => book !! key
    end.
Proof.
  induction es as [| [k m] es IH]; intros book key; cbn [foldl rev fst snd].
  - reflexivity.
  - rewrite IH. rewrite find_app_first.
    destruct (List.find _ (rev es)) as [e |]; [reflexivity |].
    cbn [List.find fst snd].
    destruct (String.eqb k key) eqn:E.
    + apply String.eqb_eq in E as ->. apply lookup_insert_eq.
    + apply String.eqb_neq in E. apply lookup_insert_ne. exact E.
Qed.

(** The book after a line: for each position, the move of the last visit
    of the line, and what the book had where the line does not go. *)
Lemma replay_line_lookup (board : Board) (book : gmap string string)
    (moves : list string) (key : string) :
  replay_line board book moves !! key =
  match List.find (fun e => String.eqb (fst e) key) (rev (visits board moves)) with
  | Some e => Some (uci (snd e))
  | None => book !! key
  end.
Proof. rewrite replay_line_visits. apply foldl_insert_lookup. Qed.

Lemma replay_line_uci_valued (board : Board) (book : gmap string string)
    (moves : list string) :
  uci_valued book -> uci_valued (replay_line board book moves).
Proof.
  intros Hb key v. rewrite replay_line_lookup.
  destruct (List.find _ _) as [e |]; [| apply Hb].
  intros [= <-]. eauto.
Qed.

Lemma load_row_uci_valued (book : gmap string string) (row : list string) :
  uci_valued book -> uci_valued (load_row book row).
Proof.
  intros Hb. unfold load_row. destruct (length row <? 3)%nat; [exact Hb |].
  destruct (row !! 2%nat); [apply replay_line_uci_valued |]; exact Hb.
Qed.

Lemma fold_load_row_uci_valued (rows : list (list string)) :
  forall book, uci_valued book -> uci_valued (fold_left load_row rows book).
Proof.
  induction rows as [| row rows IH]; intros book Hb; cbn [fold_left]; [exact Hb |].
  apply IH, load_row_uci_valued, Hb.
Qed.

Lemma load_opening_book_uci_valued (rows : list (list string)) :
  uci_valued (load_opening_book rows).
Proof.
  destruct rows as [| header rows]; cbn [load_opening_book].
  - intros key v Hk. rewrite lookup_empty in Hk. discriminate.
  - apply fold_load_row_uci_valued. intros key v Hk. rewrite lookup_empty in Hk.
    discriminate.
Qed.

(** X1.  A book that [load_opening_book] built holds texts of moves only,
    none of them empty.  So the test [if book_move] of the loops succeeds
    exactly when the position is in the book and the full-move number does
    not exceed the depth. *)
Theorem loaded_book_lookup_is_truthy (rows : list (list string)) (board : Board)
    (max_depth : Z) :
  (forall key v, load_opening_book rows !! key = Some v ->
     (exists m, v = uci m) /\ v <> "") /\
  (truthy (is_book_move board (load_opening_book rows) max_depth) = true <->
   fullmove_number board <= max_depth /\
   is_Some (load_opening_book rows !! fen_key board)).
Proof.
  pose proof (load_opening_book_uci_valued rows) as Hv.
  split.
  - intros key v Hk. destruct (Hv key v Hk) as [m ->].
    split; [eauto | apply uci_nonempty].
  - unfold is_book_move.
    destruct (max_depth <? fullmove_number board) eqn:E.
    + cbn. split; [discriminate | intros [Hd _]; lia].
    + destruct (load_opening_book rows !! fen_key board) as [v |] eqn:Hk; cbn.
      * destruct (Hv _ _ Hk) as [m ->].
        replace (String.eqb (uci m) "") with false.
        -- cbn. split; [intros _; split; [lia | eauto] | reflexivity].
        -- symmetry. apply String.eqb_neq, uci_nonempty.
      * split; [discriminate | intros [_ [v Hv']]; discriminate].
Qed.

End BookLoadingFacts.

Section BookLoadingLines.
Context {Board : Type} `{ReplayAPI Board}.

Lemma replay_line_stops (l1 : list string) :
  forall (board b' : Board) (book : gmap string string) (bad e : string)
         (l2 : list string),
    line_end board l1 = Some b' ->
    contains_dot bad = false ->
    parse_san b' bad = inl e ->
    replay_line board book (l1 ++ bad :: l2) = replay_line board book l1.
Proof.
  induction l1 as [| move l1 IH]; intros board b' book bad e l2 Hend Hdot Hbad;
    cbn [app replay_line line_end] in *.
  - injection Hend as <-. rewrite Hdot, Hbad. reflexivity.
  - destruct (contains_dot move); [eapply IH; eauto |].
    destruct (parse_san board move) as [e' | m]; [discriminate |].
    eapply IH; eauto.
Qed.

Lemma load_row_long (book : gmap string string) (row : list string) :
  (3 <= length row)%nat ->
  load_row book row = replay_line starting_board book (line_of row).
Proof.
  intros Hlen. unfold load_row, line_of.
  replace (length row <? 3)%nat with false by (symmetry; apply Nat.ltb_ge; exact Hlen).
  destruct (row !! 2%nat) as [pgn_moves |] eqn:E; [reflexivity |].
  apply lookup_ge_None in E. lia.
Qed.

Lemma load_row_short (book : gmap string string) (row : list string) :
  (length row < 3)%nat -> load_row book row = book.
Proof.
  intros Hlen. unfold load_row.
  replace (length row <? 3)%nat with true by (symmetry; apply Nat.ltb_lt; exact Hlen).
  reflexivity.
Qed.

(** X2.  The replay of a line of the book stops at the first token that
    cannot be played: the row leaves what the tokens before it wrote, and
    the tokens after it are not looked at. *)
Theorem load_row_stops_at_bad_token (book : gmap string string) (row : list string)
    (l1 l2 : list string) (bad e : string) (b' : Board) :
  (3 <= length row)%nat ->
  line_of row = l1 ++ bad :: l2 ->
  line_end starting_board l1 = Some b' ->
  contains_dot bad = false ->
  parse_san b' bad = inl e ->
  load_row book row = replay_line starting_board book l1 /\
  forall l2', replay_line starting_board book (l1 ++ bad :: l2') = load_row book row.
Proof.
  intros Hlen Hline Hend Hdot Hbad.
  rewrite (load_row_long _ _ Hlen), Hline.
  split; [| intros l2'; rewrite (replay_line_stops _ _ _ _ _ _ l2 Hend Hdot Hbad)];
    eapply replay_line_stops; eauto.
Qed.

Lemma replay_line_skips_dots (moves : list string) :
  forall (board : Board) (book : gmap string string),
    replay_line board book moves =
    replay_line board book (List.filter (fun move => negb (contains_dot move)) moves).
Proof.
  induction moves as [| move rest IH]; intros board book; [reflexivity |].
  cbn [List.filter replay_line].
  destruct (contains_dot move) eqn:E; cbn [negb]; [apply IH |].
  cbn [replay_line]. rewrite E.
  destruct (parse_san board move); [reflexivity | apply IH].
Qed.

Lemma fold_load_row_filter (rows : list (list string)) :
  forall book,
    fold_left load_row rows book =
    fold_left load_row (List.filter (fun row => (3 <=? length row)%nat) rows) book.
Proof.
  induction rows as [| row rows IH]; intros book; [reflexivity |].
  cbn [List.filter fold_left].
  destruct (3 <=? length row)%nat eqn:E.
  - cbn [fold_left]. apply IH.
  - rewrite load_row_short by (apply Nat.leb_gt; exact E). apply IH.
Qed.

(** X3.  What the loader does not read: a file with no row at all
    gives the empty book, as does a file with a header row only;
    the first row never counts, whatever it holds; rows with fewer than
    three fields are skipped; and in a line the tokens with a dot in them
    (move numbers, but also a move written onto its number as in ["1.e4"])
    are skipped. *)
Theorem load_opening_book_ignores (header header' : list string)
    (rows : list (list string)) (board : Board) (book : gmap string string)
    (moves : list string) :
  load_opening_book [] = ∅ /\
  load_opening_book [header] = ∅ /\
  load_opening_book (header :: rows) =
    load_opening_book
      (header' :: List.filter (fun row => (3 <=? length row)%nat) rows) /\
  replay_line board book moves =
    replay_line board book (List.filter (fun move => negb (contains_dot move)) moves).
Proof.
  split; [reflexivity |]. split; [reflexivity |]. split.
  - cbn [load_opening_book]. apply fold_load_row_filter.
  - apply replay_line_skips_dots.
Qed.

Lemma fold_left_snoc {A B : Type} (f : A -> B -> A) (l : list B) (x : B) (a : A) :
  fold_left f (l ++ [x]) a = f (fold_left f l a) x.
Proof. rewrite fold_left_app. reflexivity. Qed.

(** X4.  One more row at the end of the file overrides the positions its
    line goes through, each with the move of the last visit, and leaves
    every other entry as the rows before it made it; a row with fewer than
    three fields changes nothing. *)
Theorem load_opening_book_one_more_row (header : list string)
    (rows : list (list string)) (row : list string) (key : string) :
  load_opening_book (header :: rows ++ [row]) !! key =
  if (length row <? 3)%nat then load_opening_book (header :: rows) !! key
  else
    match List.find (fun e => String.eqb (fst e) key)
                    (rev (visits starting_board (line_of row))) with
    | Some e => Some (uci (snd e))
    | None => load_opening_book (header :: rows) !! key
    end.
Proof.
  cbn [load_opening_book]. rewrite fold_left_snoc.
  destruct (length row <? 3)%nat eqn:E.
  - rewrite load_row_short by (apply Nat.ltb_lt; exact E). reflexivity.
  - rewrite load_row_long by (apply Nat.ltb_ge; exact E).
    apply replay_line_lookup.
Qed.

Lemma replay_line_dom (board : Board) (book : gmap string string)
    (moves : list string) (key : string) :
  is_Some (replay_line board book moves !! key) <->
  is_Some (book !! key) \/ In key (map fst (visits board moves)).
Proof.
  rewrite replay_line_lookup.
  destruct (List.find _ _) as [e |] eqn:E.
  - apply find_some in E as [Hin Heq]. apply String.eqb_eq in Heq.
    split; [| eauto]. intros _. right. apply in_map_iff. exists e.
    split; [exact Heq | apply in_rev; exact Hin].
  - split; [auto |]. intros [Hb | Hin]; [exact Hb |].
    apply in_map_iff in Hin as (e & Heq & Hin).
    rewrite in_rev in Hin. apply (find_none _ _ E e) in Hin.
    rewrite Heq, String.eqb_refl in Hin. discriminate.
Qed.

Lemma fold_load_row_dom (rows : list (list string)) :
  forall (book : gmap string string) (key : string),
    is_Some (fold_left load_row rows book !! key) <->
    is_Some (book !! key) \/
    exists row, In row rows /\ (3 <= length row)%nat /\
                In key (map fst (visits starting_board (line_of row))).
Proof.
  induction rows as [| row rows IH]; intros book key; cbn [fold_left].
  - split; [auto |]. intros [Hb | (row & [] & _)]. exact Hb.
  - rewrite IH. destruct (Nat.lt_ge_cases (length row) 3) as [Hs | Hl].
    + rewrite load_row_short by exact Hs. split.
      * intros [Hb | (r & Hin & Hr)]; [auto |]. right. exists r. split; [right |]; auto.
      * intros [Hb | (r & [<- | Hin] & Hlen & Hr)]; [auto | lia |]. right. eauto.
    + rewrite load_row_long by exact Hl. rewrite replay_line_dom. split.
      * intros [[Hb | Hv] | (r & Hin & Hr)]; [auto | |].
        -- right. exists row. split; [left; reflexivity | auto].
        -- right. exists r. split; [right |]; auto.
      * intros [Hb | (r & [<- | Hin] & Hlen & Hr)]; [auto | auto |]. right. eauto.
Qed.

(** X5.  The positions of the loaded book are the positions that the lines
    of its rows go through, up to the first token of each line that cannot
    be played, and no others. *)
Theorem load_opening_book_positions (header : list string)
    (rows : list (list string)) (key : string) :
  is_Some (load_opening_book (header :: rows) !! key) <->
  exists row, In row rows /\ (3 <= length row)%nat /\
              In key (map fst (visits starting_board (line_of row))).
Proof.
  cbn [load_opening_book]. rewrite fold_load_row_dom. rewrite lookup_empty.
  split; [intros [[v Hv] | Hr]; [discriminate | exact Hr] | auto].
Qed.

End BookLoadingLines.

Lemma load_row_stops_at_bad_token_witness :
  (3 <= length (A := string) ["C20"; "King's pawn"; "1. e4 e5 2. Zz9 Nc6"])%nat /\
  load_row ∅ ["C20"; "King's pawn"; "1. e4 e5 2. Zz9 Nc6"] =
  replay_line starting_board ∅ ["1."; "e4"; "e5"; "2."].
Proof.
  assert (Hlen : (3 <= length (A := string)
                        ["C20"; "King's pawn"; "1. e4 e5 2. Zz9 Nc6"])%nat)
    by (cbn; lia).
  split; [exact Hlen |].
  assert (Hline : line_of ["C20"; "King's pawn"; "1. e4 e5 2. Zz9 Nc6"] =
                  ["1."; "e4"; "e5"; "2."] ++ "Zz9" :: ["Nc6"])
    by (vm_compute; reflexivity).
  assert (Hend : line_end starting_board ["1."; "e4"; "e5"; "2."] =
                 Some (push (push Toy.start (Toy.mv 12 28)) (Toy.mv 52 36)))
    by (vm_compute; reflexivity).
  assert (Hdot : contains_dot "Zz9" = false) by reflexivity.
  assert (Hbad : parse_san (push (push Toy.start (Toy.mv 12 28)) (Toy.mv 52 36)) "Zz9"
                 = inl "invalid san: Zz9") by (vm_compute; reflexivity).
  destruct (load_row_stops_at_bad_token ∅
              ["C20"; "King's pawn"; "1. e4 e5 2. Zz9 Nc6"]
              ["1."; "e4"; "e5"; "2."] ["Nc6"] "Zz9" "invalid san: Zz9"
              (push (push Toy.start (Toy.mv 12 28)) (Toy.mv 52 36))
              Hlen Hline Hend Hdot Hbad) as [Hrow _].
  exact Hrow.
Defined.

(** The book of the toy file: the short row and the header leave nothing,
    the first line leaves its two positions, the second one the two before
    the token the toy board cannot play. *)
Example load_opening_book_toy :
  map snd (map_to_list (load_opening_book ToyBook.rows)) =
    ["g1f3"; "e2e4"; "e7e5"; "d7d6"] /\
  is_book_move (push Toy.start (Toy.mv 6 21)) (load_opening_book ToyBook.rows) 8
    = Some "g1f3".
Proof. vm_compute. split; reflexivity. Qed.

(** ** The report *)

Lemma Classification_value_inj (c c' : Classification) :
  Classification_value c = Classification_value c' -> c = c'.
Proof. destruct c, c'; cbn; intros Hv; try reflexivity; discriminate Hv. Qed.

Lemma GamePhase_value_inj (p p' : GamePhase) :
  GamePhase_value p = GamePhase_value p' -> p = p'.
Proof. destruct p, p'; cbn; intros Hv; try reflexivity; discriminate Hv. Qed.

(** X6.  The rating of a phase is one of the nine classifications of the
    rating table and its two defaults: a phase is never rated Book or
    Forced, whatever its moves are. *)
Theorem get_phase_rating_range (py_sum : list spec_float -> spec_float)
    (classified_moves : list Classification) :
  In (get_phase_rating py_sum classified_moves)
     [BRILLIANT; GREAT; BEST; EXCELLENT; GOOD; INACCURACY; MISS; MISTAKE; BLUNDER] /\
  get_phase_rating py_sum classified_moves <> BOOK /\
  get_phase_rating py_sum classified_moves <> FORCED.
Proof.
  assert (Hin : In (get_phase_rating py_sum classified_moves)
                   [BRILLIANT; GREAT; BEST; EXCELLENT; GOOD; INACCURACY; MISS;
                    MISTAKE; BLUNDER]).
  { destruct classified_moves as [| m ms]; [cbn; tauto |].
    unfold get_phase_rating, rating_order.
    set (average := (py_sum _ / _)%py). cbn [find].
    repeat match goal with
           | |- context [PyFloat.leb ?t average] =>
               destruct (PyFloat.leb t average); [cbn; tauto |]
           end.
    cbn; tauto. }
  split; [exact Hin |].
  split; intros E; rewrite E in Hin; cbn in Hin; intuition discriminate.
Qed.

(** X7.  The phase analysis has an entry for a phase exactly when at least
    one move was recorded in that phase; the entry holds the rating of the
    moves of the phase and their number, which is at least one.  No other
    key is written. *)
Theorem phase_analysis_entries (py_sum : list spec_float -> spec_float)
    (phase_data : GamePhase -> list Classification) :
  (forall phase,
     phase_analysis py_sum phase_data !! GamePhase_value phase =
     match phase_data phase with
     | [] => None
     | moves =>
         Some {| rating := Classification_value (get_phase_rating py_sum moves);
                 move_count := Z.of_nat (length moves) |}
     end) /\
  (forall key summary,
     phase_analysis py_sum phase_data !! key = Some summary ->
     1 <= move_count summary /\
     exists phase, key = GamePhase_value phase /\ phase_data phase <> []).
Proof.
  assert (Hlookup : forall phase,
     phase_analysis py_sum phase_data !! GamePhase_value phase =
     match phase_data phase with
     | [] => None
     | moves =>
         Some {| rating := Classification_value (get_phase_rating py_sum moves);
                 move_count := Z.of_nat (length moves) |}
     end).
  { intros phase. unfold phase_analysis, all_phases. cbn [foldl].
    destruct (phase_data OPENING) eqn:E1, (phase_data MIDDLEGAME) eqn:E2,
      (phase_data ENDGAME) eqn:E3; destruct phase; cbn [GamePhase_value];
      rewrite ?E1, ?E2, ?E3; simplify_map_eq; reflexivity. }
  split; [exact Hlookup |].
  intros key summary Hk.
  assert (Hkey : exists phase, key = GamePhase_value phase).
  { revert Hk. unfold phase_analysis, all_phases. cbn [foldl].
    destruct (phase_data OPENING), (phase_data MIDDLEGAME), (phase_data ENDGAME);
      intros Hk;
      repeat (apply lookup_insert_Some in Hk as [[<- _] | [_ Hk]];
              [ first [ exists OPENING; reflexivity | exists MIDDLEGAME; reflexivity
                      | exists ENDGAME; reflexivity ] |]);
      rewrite lookup_empty in Hk; discriminate. }
  destruct Hkey as [phase ->]. rewrite Hlookup in Hk.
  destruct (phase_data phase) as [| m ms] eqn:E; [discriminate |].
  injection Hk as <-. cbn [move_count length]. split; [lia |].
  exists phase. split; [reflexivity |]. rewrite E. discriminate.
Qed.

Lemma counts_of_ext (f g : Classification -> Z) (counts : gmap string Z) :
  (forall c, f c = g c) -> counts_of f counts -> counts_of g counts.
Proof.
  intros Hfg [Hv Hk]. split; [| exact Hk]. intros c. rewrite Hv, Hfg. reflexivity.
Qed.

Lemma counts_of_initial :
  counts_of (fun _ => 0)
    (list_to_map (map (fun c => (Classification_value c, 0)) all_classifications)).
Proof.
  split.
  - intros c. destruct c; vm_compute; reflexivity.
  - intros key [n Hn]. apply elem_of_list_to_map_2 in Hn.
    apply list_elem_of_In, in_map_iff in Hn as (c & [= <- _] & _). eauto.
Qed.

Lemma increment_counts (f : Classification -> Z) (counts : gmap string Z)
    (m : Classification) :
  counts_of f counts ->
  exists counts',
    increment counts m = Some counts' /\
    counts_of (fun c => f c + (if bool_decide (m = c) then 1 else 0)) counts'.
Proof.
  intros [Hv Hk]. unfold increment. rewrite Hv. eexists. split; [reflexivity |].
  split.
  - intros c. case_bool_decide as E.
    + subst c. rewrite lookup_insert_eq. reflexivity.
    + rewrite lookup_insert_ne.
      * rewrite Hv. f_equal. lia.
      * intros Hne. apply E, Classification_value_inj, Hne.
  - intros key Hs. destruct (decide (Classification_value m = key)) as [<- | Hne];
      [eauto |].
    rewrite lookup_insert_ne in Hs by exact Hne. auto.
Qed.

Lemma occurrences_cons (c m : Classification) (ms : list Classification) :
  occurrences c (m :: ms) = (if bool_decide (m = c) then 1 else 0) + occurrences c ms.
Proof.
  unfold occurrences. cbn [List.filter].
  destruct (bool_decide (m = c)); cbn [length]; lia.
Qed.

Lemma occurrences_app (c : Classification) (l1 l2 : list Classification) :
  occurrences c (l1 ++ l2) = occurrences c l1 + occurrences c l2.
Proof.
  unfold occurrences. rewrite List.filter_app, length_app. lia.
Qed.

Lemma tally_counts (ms : list Classification) :
  forall (f : Classification -> Z) (counts : gmap string Z),
    counts_of f counts ->
    exists counts',
      tally counts ms = Some counts' /\
      counts_of (fun c => f c + occurrences c ms) counts'.
Proof.
  induction ms as [| m ms IH]; intros f counts Hc; cbn [tally].
  - exists counts. split; [reflexivity |].
    eapply counts_of_ext; [| exact Hc]. intros c. unfold occurrences. cbn. lia.
  - destruct (increment_counts f counts m Hc) as (counts1 & -> & Hc1).
    destruct (IH _ _ Hc1) as (counts' & Ht & Hc').
    exists counts'. split; [exact Ht |].
    eapply counts_of_ext; [| exact Hc']. intros c. cbn beta.
    rewrite occurrences_cons. lia.
Qed.

Lemma occurrences_total (ms : list Classification) :
  foldr Z.add 0 (map (fun c => occurrences c ms) all_classifications) =
  Z.of_nat (length ms).
Proof.
  induction ms as [| m ms IH].
  - reflexivity.
  - cbn [all_classifications map foldr] in *. rewrite !occurrences_cons.
    cbn [length]. destruct m;
      repeat match goal with
             | |- context [bool_decide ?P] =>
                 first [ rewrite (bool_decide_eq_true_2 P) by reflexivity
                       | rewrite (bool_decide_eq_false_2 P) by discriminate ]
             end; lia.
Qed.

Lemma player_counts_of (by_phase : GamePhase -> list Classification) :
  exists counts,
    player_counts by_phase = Some counts /\
    counts_of (fun c => occurrences c (moves_of by_phase)) counts.
Proof.
  unfold player_counts, all_phases. cbn [foldl].
  destruct (tally_counts (by_phase OPENING) _ _ counts_of_initial) as (c1 & -> & H1).
  destruct (tally_counts (by_phase MIDDLEGAME) _ _ H1) as (c2 & -> & H2).
  destruct (tally_counts (by_phase ENDGAME) _ _ H2) as (c3 & -> & H3).
  exists c3. split; [reflexivity |].
  eapply counts_of_ext; [| exact H3]. intros c. cbn beta. unfold moves_of.
  rewrite !occurrences_app. lia.
Qed.

(** X8.  The tally of a player never meets a missing key.  It has the
    eleven names of the classifications as its keys and no other; under
    each name it holds the number of the player's moves, over all phases,
    that were given that classification; and the counts add up to the
    number of the player's moves. *)
Theorem player_counts_tally (by_phase : GamePhase -> list Classification) :
  exists counts,
    player_counts by_phase = Some counts /\
    (forall c, counts !! Classification_value c =
               Some (occurrences c (moves_of by_phase))) /\
    (forall key, is_Some (counts !! key) -> exists c, key = Classification_value c) /\
    foldr Z.add 0
      (map (fun c => default 0 (counts !! Classification_value c)) all_classifications)
    = Z.of_nat (length (moves_of by_phase)).
Proof.
  destruct (player_counts_of by_phase) as (counts & Hp & Hv & Hk).
  exists counts. repeat split; auto.
  rewrite <- occurrences_total. f_equal. apply map_ext. intros c.
  rewrite Hv. reflexivity.
Qed.

(** X9.  The player summaries are always produced.  When the two players
    have different names there is an entry for each with that player's
    tally; when they have the same name (as two players with no name in the
    input have) there is one entry, and it holds the tally of Black: the one
    of White is overwritten. *)
Theorem player_summaries_names {K : Type} `{Countable K} (white black : K)
    (classifications : Color -> GamePhase -> list Classification) :
  exists white_counts black_counts players,
    player_counts (classifications WHITE) = Some white_counts /\
    player_counts (classifications BLACK) = Some black_counts /\
    player_summaries white black classifications = Some players /\
    players !! black = Some black_counts /\
    (white <> black -> players !! white = Some white_counts /\ size players = 2%nat) /\
    (white = black -> players = {[ black := black_counts ]}).
Proof.
  destruct (player_counts_of (classifications WHITE)) as (cw & Hw & _).
  destruct (player_counts_of (classifications BLACK)) as (cb & Hb & _).
  exists cw, cb, (<[black := cb]> (<[white := cw]> ∅)).
  unfold player_summaries. rewrite Hw, Hb.
  split; [reflexivity |]. split; [reflexivity |]. split; [reflexivity |].
  split; [apply lookup_insert_eq |]. split.
  - intros Hne. split.
    + rewrite lookup_insert_ne by congruence. apply lookup_insert_eq.
    + rewrite map_size_insert_None.
      * rewrite map_size_insert_None by apply lookup_empty. reflexivity.
      * rewrite lookup_insert_ne by congruence. apply lookup_empty.
  - intros ->. rewrite insert_insert_eq. reflexivity.
Qed.

Lemma player_summaries_names_witness :
  "Ann" <> "Bob" /\
  exists players : gmap string (gmap string Z),
    player_summaries "Ann" "Bob" (fun _ _ => [BEST]) = Some players /\
    size players = 2%nat.
Proof.
  assert (Hne : "Ann" <> "Bob") by discriminate.
  split; [exact Hne |].
  destruct (player_summaries_names "Ann" "Bob" (fun _ _ => [BEST]))
    as (cw & cb & players & _ & _ & Hp & _ & Hdiff & _).
  exists players. split; [exact Hp | exact (proj2 (Hdiff Hne))].
Defined.

(** ** Invariants of the loops *)

Lemma numbered_from_app (records1 : list MoveRecord) :
  forall (n : Z) (records2 : list MoveRecord),
    numbered_from n (records1 ++ records2) <->
    numbered_from n records1 /\
    numbered_from (n + Z.of_nat (length (List.filter is_analysed records1))) records2.
Proof.
  induction records1 as [| r records1 IH]; intros n records2.
  - cbn. rewrite Z.add_0_r. tauto.
  - destruct r; cbn [app numbered_from List.filter is_analysed length]; rewrite IH.
    + replace (n + 1 + Z.of_nat (length (List.filter is_analysed records1)))
        with (n + Z.of_nat (S (length (List.filter is_analysed records1)))) by lia.
      tauto.
    + tauto.
Qed.

Lemma occurrences_snoc (c m : Classification) (ms : list Classification) :
  occurrences c (ms ++ [m]) =
  occurrences c ms + (if bool_decide (m = c) then 1 else 0).
Proof.
  rewrite occurrences_app, occurrences_cons.
  change (occurrences c []) with 0. destruct (bool_decide (m = c)); lia.
Qed.

(** Recording one analysed move keeps the accumulators in agreement. *)
Lemma accumulators_agree_record
    (classifications : Color -> GamePhase -> list Classification)
    (phase_data : GamePhase -> list Classification)
    (move_analysis : list MoveRecord) (player : Color) (phase : GamePhase)
    (c : Classification) (r : MoveRecord) :
  is_analysed r = true ->
  accumulators_agree classifications phase_data move_analysis ->
  accumulators_agree
    (fun p => if decide (p = player)
              then append_at (classifications p) phase c
              else classifications p)
    (append_at phase_data phase c)
    (move_analysis ++ [r]).
Proof.
  intros Hr [Hocc Hlen]. split.
  - intros ph c'. specialize (Hocc ph c'). cbn beta.
    destruct player;
      rewrite ?(decide_True (P := WHITE = WHITE)) by reflexivity;
      rewrite ?(decide_True (P := BLACK = BLACK)) by reflexivity;
      rewrite ?(decide_False (P := WHITE = BLACK)) by discriminate;
      rewrite ?(decide_False (P := BLACK = WHITE)) by discriminate;
      (destruct (decide (ph = phase)) as [-> | Hne];
       [ rewrite !append_at_same, !occurrences_snoc
       | rewrite !append_at_other by exact Hne ]);
      try destruct (bool_decide (c = c')); lia.
  - rewrite List.filter_app, length_app. cbn [List.filter]. rewrite Hr. cbn [length].
    destruct phase;
      repeat match goal with
             | |- context [append_at ?d ?k ?x ?k'] =>
                 first [ rewrite (append_at_same d k x)
                       | rewrite (append_at_other d k k' x) by discriminate ]
             end;
      rewrite ?length_app; cbn [length]; lia.
Qed.

Lemma accumulators_agree_skip
    (classifications : Color -> GamePhase -> list Classification)
    (phase_data : GamePhase -> list Classification)
    (move_analysis : list MoveRecord) (r : MoveRecord) :
  is_analysed r = false ->
  accumulators_agree classifications phase_data move_analysis ->
  accumulators_agree classifications phase_data (move_analysis ++ [r]).
Proof.
  intros Hr [Hocc Hlen]. split; [exact Hocc |].
  rewrite List.filter_app, length_app. cbn [List.filter]. rewrite Hr. cbn [length].
  lia.
Qed.

Lemma centipawn_loop_in (cands : list Classification) (pre_eval eval_loss : Z)
    (c : Classification) :
  centipawn_loop cands pre_eval eval_loss = Ok (Some c) -> In c cands.
Proof.
  induction cands as [| c0 cands IH]; cbn [centipawn_loop]; [discriminate |].
  destruct (get_evaluation_loss_threshold c0 pre_eval) as [t | e]; cbn [bind];
    [| discriminate].
  destruct (PyFloat.int_le eval_loss t).
  - intros [= <-]. left. reflexivity.
  - intros Hl. right. auto.
Qed.

Lemma initial_classification_assigned (book_move : option string)
    (pre_eval eval_loss : Z) (c : Classification) :
  initial_classification book_move pre_eval eval_loss = Ok c ->
  assigned c /\ c <> GREAT /\ (c = BOOK -> truthy book_move = true).
Proof.
  unfold initial_classification. destruct (truthy book_move).
  - intros [= <-]. unfold assigned. cbn. intuition discriminate.
  - intros Hb. apply bind_ok in Hb as (oc & Hloop & [= <-]).
    destruct oc as [c |]; cbn [default].
    + apply centipawn_loop_in in Hloop. unfold assigned. cbn in Hloop.
      repeat (destruct Hloop as [<- | Hloop]; [cbn; intuition discriminate |]).
      destruct Hloop.
    + unfold assigned. cbn. intuition discriminate.
Qed.

(** After the three stages: never [FORCED], never [BRILLIANT], and [BOOK]
    for a book move only. *)
Lemma stages_assigned (book_move : option string) (pre_info : Info)
    (pre_eval post_eval : Z) (not_best : bool) (c0 : Classification) :
  initial_classification book_move pre_eval (Z.abs (pre_eval - post_eval)) = Ok c0 ->
  let c := brilliant_check
             (missed_opportunity c0 pre_info pre_eval (Z.abs (pre_eval - post_eval))
                not_best) pre_eval post_eval in
  assigned c /\ (c = BOOK -> truthy book_move = true).
Proof.
  intros Hi. apply initial_classification_assigned in Hi as (Ha & Hg & Hb).
  cbv zeta. unfold missed_opportunity.
  destruct (_ && _ && _).
  - rewrite brilliant_check_other by discriminate.
    unfold assigned. cbn. intuition discriminate.
  - unfold brilliant_check. case_bool_decide as E.
    + subst c0.
      destruct (pre_eval <? -150) eqn:E1, (150 <=? post_eval) eqn:E2;
        destruct (pre_eval <? -300) eqn:E3, (300 <=? post_eval) eqn:E4;
        cbn [andb]; unfold assigned; cbn; try (intuition discriminate); lia.
    + auto.
Qed.

Lemma pgn_classify_assigned (book_move : option string) (pre_info : Info)
    (pre_eval post_eval : Z) (move : Move) (best_move : option Move)
    (c : Classification) :
  ChessReview.classify book_move pre_info pre_eval post_eval move best_move = Ok c ->
  assigned c /\ (c = BOOK -> truthy book_move = true).
Proof.
  unfold ChessReview.classify. intros Hc.
  apply bind_ok in Hc as (c0 & Hi & [= <-]).
  exact (stages_assigned _ _ _ _ _ _ Hi).
Qed.

Lemma json_classify_assigned (book_move : option string) (pre_info : Info)
    (pre_eval post_eval : Z) (token : string) (best_move : option Move)
    (c : Classification) :
  ChessReview2.classify book_move pre_info pre_eval post_eval token best_move = Ok c ->
  assigned c /\ (c = BOOK -> truthy book_move = true).
Proof.
  unfold ChessReview2.classify. intros Hc.
  apply bind_ok in Hc as (c0 & Hi & [= <-]).
  exact (stages_assigned _ _ _ _ _ _ Hi).
Qed.

Lemma Forall_append_at {K A : Type} `{EqDecision K} (P : A -> Prop)
    (d : K -> list A) (k : K) (x : A) :
  (forall k', Forall P (d k')) -> P x -> forall k', Forall P (append_at d k x k').
Proof.
  intros Hd Hx k'. unfold append_at. destruct (decide (k' = k)); [| apply Hd].
  apply Forall_app. split; [apply Hd | repeat constructor; exact Hx].
Qed.

Lemma Forall_record {A : Type} (P : A -> Prop)
    (classifications : Color -> GamePhase -> list A) (player : Color)
    (phase : GamePhase) (x : A) :
  (forall p ph, Forall P (classifications p ph)) -> P x ->
  forall p ph,
    Forall P ((fun p => if decide (p = player)
                        then append_at (classifications p) phase x
                        else classifications p) p ph).
Proof.
  intros Hc Hx p ph. cbn beta. destruct (decide (p = player)); [| apply Hc].
  apply Forall_append_at; auto.
Qed.

Section PgnInvariants.
Context {Board : Type} `{BoardAPI Board}.
Variable engine : nat -> Board -> Info.
Variable opening_book : gmap string string.

(** All that a completed pass through the body of the PGN loop does. *)
Lemma pgn_body_inv (st st' : ChessReview.State) (move_number : Z) (move : Move) :
  ChessReview.body engine opening_book st move_number move = Ok st' ->
  let board' := push (ChessReview.board st) move in
  let pre_info := engine (ChessReview.calls st) (ChessReview.board st) in
  let pre_eval := white_eval pre_info in
  let post_eval := white_eval (engine (S (ChessReview.calls st)) board') in
  let book_move := is_book_move board' opening_book 8 in
  let phase := detect_game_phase board' (ChessReview.in_opening st) in
  let player := if bool_decide (turn board' = BLACK) then WHITE else BLACK in
  exists best c ev evl,
    ChessReview.classify book_move pre_info pre_eval post_eval move best = Ok c /\
    ChessReview.board st' = board' /\
    ChessReview.calls st' = S (S (ChessReview.calls st)) /\
    ChessReview.classifications st' =
      (fun p => if decide (p = player)
                then append_at (ChessReview.classifications st p) phase c
                else ChessReview.classifications st p) /\
    ChessReview.phase_data st' = append_at (ChessReview.phase_data st) phase c /\
    ChessReview.move_analysis st' =
      ChessReview.move_analysis st ++
      [Analysed move_number
         (if bool_decide (turn board' = BLACK) then "White" else "Black")
         (uci move) ev evl (Classification_value c)].
Proof.
  unfold ChessReview.body. intros Hb.
  apply bind_ok in Hb as (best & _ & Hb).
  apply bind_ok in Hb as (c & Hc & Hb).
  apply bind_ok in Hb as (ev & _ & Hb).
  apply bind_ok in Hb as (evl & _ & Hb).
  injection Hb as <-. cbv zeta. exists best, c, ev, evl. cbn. auto 10.
Qed.

Lemma pgn_loop_records (mainline : list Move) :
  forall (st st' : ChessReview.State) (n : Z),
    ChessReview.loop engine opening_book st n mainline = Ok st' ->
    exists records,
      ChessReview.move_analysis st' = ChessReview.move_analysis st ++ records /\
      map record_move records = map uci mainline /\
      forallb is_analysed records = true /\
      numbered_from n records /\
      ChessReview.board st' = foldl push (ChessReview.board st) mainline /\
      ChessReview.calls st' = (ChessReview.calls st + 2 * length mainline)%nat.
Proof.
  induction mainline as [| move rest IH]; intros st st' n Hl; cbn [ChessReview.loop] in Hl.
  - injection Hl as <-. exists []. rewrite app_nil_r. cbn. repeat split; lia.
  - apply bind_ok in Hl as (st1 & Hb & Hl).
    apply pgn_body_inv in Hb as (best & c & ev & evl & _ & Hbd & Hcalls & _ & _ & Hma).
    apply IH in Hl as (records & Hrec & Hmv & Han & Hnum & Hboard & Hc).
    eexists (_ :: records). rewrite Hrec, Hma, <- app_assoc. cbn [app].
    split; [reflexivity |]. cbn [map record_move forallb is_analysed numbered_from foldl].
    rewrite Hmv, Han, Hboard, Hbd, Hc, Hcalls. cbn [length]. repeat split; auto. lia.
Qed.

Lemma pgn_loop_agree (mainline : list Move) :
  forall (st st' : ChessReview.State) (n : Z),
    ChessReview.loop engine opening_book st n mainline = Ok st' ->
    accumulators_agree (ChessReview.classifications st) (ChessReview.phase_data st)
      (ChessReview.move_analysis st) ->
    accumulators_agree (ChessReview.classifications st') (ChessReview.phase_data st')
      (ChessReview.move_analysis st').
Proof.
  induction mainline as [| move rest IH]; intros st st' n Hl Hinv;
    cbn [ChessReview.loop] in Hl.
  - injection Hl as <-. exact Hinv.
  - apply bind_ok in Hl as (st1 & Hb & Hl).
    apply (IH _ _ _ Hl).
    apply pgn_body_inv in Hb as (best & c & ev & evl & _ & _ & _ & -> & -> & ->).
    apply accumulators_agree_record; [reflexivity | exact Hinv].
Qed.

Lemma pgn_loop_assigned (mainline : list Move) :
  forall (st st' : ChessReview.State) (n : Z),
    ChessReview.loop engine opening_book st n mainline = Ok st' ->
    (forall player phase, Forall assigned (ChessReview.classifications st player phase)) ->
    (forall phase, Forall assigned (ChessReview.phase_data st phase)) ->
    (forall player phase, Forall assigned (ChessReview.classifications st' player phase)) /\
    (forall phase, Forall assigned (ChessReview.phase_data st' phase)).
Proof.
  induction mainline as [| move rest IH]; intros st st' n Hl Hc Hp;
    cbn [ChessReview.loop] in Hl.
  - injection Hl as <-. auto.
  - apply bind_ok in Hl as (st1 & Hb & Hl).
    apply (IH _ _ _ Hl);
      apply pgn_body_inv in Hb as (best & c & ev & evl & Hcl & _ & _ & Hcs & Hpd & _);
      apply pgn_classify_assigned in Hcl as [Ha _]; rewrite ?Hcs, ?Hpd.
    + apply Forall_record; assumption.
    + apply Forall_append_at; assumption.
Qed.

End PgnInvariants.

Section JsonInvariants.
Context {Board : Type} `{BoardAPI Board}.
Variable engine : nat -> Board -> Info.
Variable opening_book : gmap string string.

(** All that a completed pass through the body of the JSON loop does. *)
Lemma json_body_inv (st st' : ChessReview2.State) (token : string) :
  ChessReview2.body engine opening_book st token = Ok st' ->
  match push_san (ChessReview2.board st) token with
  | inl e =>
      ChessReview2.board st' = ChessReview2.board st /\
      ChessReview2.move_number st' = ChessReview2.move_number st /\
      ChessReview2.classifications st' = ChessReview2.classifications st /\
      ChessReview2.phase_data st' = ChessReview2.phase_data st /\
      ChessReview2.move_analysis st' =
        ChessReview2.move_analysis st ++
        [Invalid (ChessReview2.move_number st) "unknown" token ("Invalid move: " +:+ e)]
  | inr board' =>
      let pre_info := engine (ChessReview2.calls st) (ChessReview2.board st) in
      let pre_eval := white_eval pre_info in
      let post_eval := white_eval (engine (S (ChessReview2.calls st)) board') in
      let book_move := is_book_move board' opening_book 8 in
      let phase := detect_game_phase board' (ChessReview2.in_opening st) in
      let player := if bool_decide (turn board' = BLACK) then WHITE else BLACK in
      exists best c ev evl,
        ChessReview2.classify book_move pre_info pre_eval post_eval token best = Ok c /\
        ChessReview2.board st' = board' /\
        ChessReview2.move_number st' = ChessReview2.move_number st + 1 /\
        ChessReview2.classifications st' =
          (fun p => if decide (p = player)
                    then append_at (ChessReview2.classifications st p) phase c
                    else ChessReview2.classifications st p) /\
        ChessReview2.phase_data st' = append_at (ChessReview2.phase_data st) phase c /\
        ChessReview2.move_analysis st' =
          ChessReview2.move_analysis st ++
          [Analysed (ChessReview2.move_number st)
             (if bool_decide (player = WHITE) then "White" else "Black")
             token ev evl (Classification_value c)]
  end.
Proof.
  unfold ChessReview2.body. intros Hb.
  apply bind_ok in Hb as (best & _ & Hb).
  destruct (push_san (ChessReview2.board st) token) as [e | board'].
  - injection Hb as <-. cbn. auto.
  - apply bind_ok in Hb as (c & Hc & Hb).
    apply bind_ok in Hb as (ev & _ & Hb).
    apply bind_ok in Hb as (evl & _ & Hb).
    injection Hb as <-. cbv zeta. exists best, c, ev, evl. cbn. auto 10.
Qed.

Lemma json_loop_records (tokens : list string) :
  forall st st' : ChessReview2.State,
    ChessReview2.token_loop engine opening_book st tokens = Ok st' ->
    exists records,
      ChessReview2.move_analysis st' = ChessReview2.move_analysis st ++ records /\
      map record_move records = tokens /\
      numbered_from (ChessReview2.move_number st) records /\
      ChessReview2.move_number st' =
        ChessReview2.move_number st
        + Z.of_nat (length (List.filter is_analysed records)).
Proof.
  induction tokens as [| token rest IH]; intros st st' Hl;
    cbn [ChessReview2.token_loop] in Hl.
  - injection Hl as <-. exists []. rewrite app_nil_r. cbn. repeat split; lia.
  - apply bind_ok in Hl as (st1 & Hb & Hl).
    apply IH in Hl as (records & Hrec & Hmv & Hnum & Hn).
    apply json_body_inv in Hb.
    destruct (push_san (ChessReview2.board st) token) as [e | board'].
    + destruct Hb as (_ & Hk & _ & _ & Hma).
      eexists (_ :: records). rewrite Hrec, Hma, <- app_assoc. cbn [app].
      split; [reflexivity |].
      cbn [map record_move numbered_from List.filter is_analysed].
      rewrite Hmv, Hn, Hk in *. repeat split; auto.
    + destruct Hb as (best & c & ev & evl & _ & _ & Hk & _ & _ & Hma).
      eexists (_ :: records). rewrite Hrec, Hma, <- app_assoc. cbn [app].
      split; [reflexivity |].
      cbn [map record_move numbered_from List.filter is_analysed length].
      rewrite Hmv, Hn, Hk in *. repeat split; auto. lia.
Qed.

Lemma json_loop_agree (tokens : list string) :
  forall st st' : ChessReview2.State,
    ChessReview2.token_loop engine opening_book st tokens = Ok st' ->
    accumulators_agree (ChessReview2.classifications st) (ChessReview2.phase_data st)
      (ChessReview2.move_analysis st) ->
    accumulators_agree (ChessReview2.classifications st') (ChessReview2.phase_data st')
      (ChessReview2.move_analysis st').
Proof.
  induction tokens as [| token rest IH]; intros st st' Hl Hinv;
    cbn [ChessReview2.token_loop] in Hl.
  - injection Hl as <-. exact Hinv.
  - apply bind_ok in Hl as (st1 & Hb & Hl).
    apply (IH _ _ Hl). apply json_body_inv in Hb.
    destruct (push_san (ChessReview2.board st) token) as [e | board'].
    + destruct Hb as (_ & _ & -> & -> & ->).
      apply accumulators_agree_skip; [reflexivity | exact Hinv].
    + destruct Hb as (best & c & ev & evl & _ & _ & _ & -> & -> & ->).
      apply accumulators_agree_record; [reflexivity | exact Hinv].
Qed.

Lemma json_loop_assigned (tokens : list string) :
  forall st st' : ChessReview2.State,
    ChessReview2.token_loop engine opening_book st tokens = Ok st' ->
    (forall player phase, Forall assigned (ChessReview2.classifications st player phase)) ->
    (forall phase, Forall assigned (ChessReview2.phase_data st phase)) ->
    (forall player phase, Forall assigned (ChessReview2.classifications st' player phase)) /\
    (forall phase, Forall assigned (ChessReview2.phase_data st' phase)).
Proof.
  induction tokens as [| token rest IH]; intros st st' Hl Hc Hp;
    cbn [ChessReview2.token_loop] in Hl.
  - injection Hl as <-. auto.
  - apply bind_ok in Hl as (st1 & Hb & Hl).
    apply json_body_inv in Hb.
    destruct (push_san (ChessReview2.board st) token) as [e | board'].
    + destruct Hb as (_ & _ & Hcs & Hpd & _).
      apply (IH _ _ Hl); rewrite ?Hcs, ?Hpd; assumption.
    + destruct Hb as (best & c & ev & evl & Hcl & _ & _ & Hcs & Hpd & _).
      apply json_classify_assigned in Hcl as [Ha _].
      apply (IH _ _ Hl); rewrite ?Hcs, ?Hpd.
      * apply Forall_record; assumption.
      * apply Forall_append_at; assumption.
Qed.

End JsonInvariants.

Lemma accumulators_agree_initial :
  accumulators_agree (fun _ _ => []) (fun _ => []) [].
Proof. split; reflexivity. Qed.

Lemma assigned_occurrences (ms : list Classification) :
  Forall assigned ms ->
  occurrences FORCED ms = 0 /\ occurrences BRILLIANT ms = 0.
Proof.
  induction 1 as [| m ms Hm _ [IH1 IH2]]; [split; reflexivity |].
  rewrite !occurrences_cons, IH1, IH2.
  unfold assigned in Hm. cbn in Hm.
  repeat (destruct Hm as [<- | Hm]; [split; reflexivity |]). destruct Hm.
Qed.

(** X10.  A completed run of the PGN loop leaves one record for each move
    of the game, in the order of the game: the records carry the numbers 1,
    2, 3, ... and the moves in UCI text, none of them is an error record, the
    board is the starting board with all the moves played, and the engine
    was asked twice for each move. *)
Theorem pgn_one_record_per_move {Board : Type} `{BoardAPI Board}
    (engine : nat -> Board -> Info) (opening_book : gmap string string)
    (start : Board) (mainline : list Move) (st : ChessReview.State) :
  ChessReview.analyze_pgn_with_stockfish engine opening_book start mainline = Ok st ->
  map record_move (ChessReview.move_analysis st) = map uci mainline /\
  forallb is_analysed (ChessReview.move_analysis st) = true /\
  numbered_from 1 (ChessReview.move_analysis st) /\
  ChessReview.board st = foldl push start mainline /\
  ChessReview.calls st = (2 * length mainline)%nat.
Proof.
  unfold ChessReview.analyze_pgn_with_stockfish. intros Hl.
  apply pgn_loop_records in Hl as (records & Hrec & Hmv & Han & Hnum & Hb & Hc).
  cbn [ChessReview.initial ChessReview.move_analysis ChessReview.board
       ChessReview.calls app] in *.
  rewrite Hrec. auto.
Qed.

Lemma pgn_one_record_per_move_witness :
  exists st,
    ChessReview.analyze_pgn_with_stockfish (Toy.scripted [] None) ∅ Toy.start
      [Toy.mv 6 21; Toy.mv 51 43] = Ok st /\
    map record_move (ChessReview.move_analysis st) = ["g1f3"; "d7d6"].
Proof.
  destruct (ChessReview.analyze_pgn_with_stockfish (Toy.scripted [] None) ∅ Toy.start
              [Toy.mv 6 21; Toy.mv 51 43]) as [st | e] eqn:Hrun;
    [| vm_compute in Hrun; discriminate Hrun].
  exists st. split; [reflexivity |].
  destruct (pgn_one_record_per_move _ _ _ _ _ Hrun) as [Hmv _]. exact Hmv.
Defined.

(** X11.  A completed run of the JSON loops leaves one record for each
    token of the move lines that does not end in a dot, in order, holding
    the token itself.  The analysed moves are numbered 1, 2, 3, ...; the
    record of a token that could not be played carries the number of the
    move that comes after it; and [move_number] ends one above the number of
    analysed moves. *)
Theorem json_one_record_per_token {Board : Type} `{BoardAPI Board}
    (engine : nat -> Board -> Info) (opening_book : gmap string string)
    (start : Board) (moves : list string) (st : ChessReview2.State) :
  ChessReview2.analyze_json_game_with_stockfish engine opening_book start moves = Ok st ->
  map record_move (ChessReview2.move_analysis st) = JsonTrace.tokens_of moves /\
  numbered_from 1 (ChessReview2.move_analysis st) /\
  ChessReview2.move_number st =
    1 + Z.of_nat (length (List.filter is_analysed (ChessReview2.move_analysis st))).
Proof.
  unfold ChessReview2.analyze_json_game_with_stockfish. rewrite line_loop_tokens.
  intros Hl. apply json_loop_records in Hl as (records & Hrec & Hmv & Hnum & Hn).
  cbn [ChessReview2.initial ChessReview2.move_analysis ChessReview2.move_number app] in *.
  rewrite Hrec. auto.
Qed.

Lemma json_one_record_per_token_witness :
  exists st,
    ChessReview2.analyze_json_game_with_stockfish (Toy.scripted [] None) ∅ Toy.start
      ["1. Nf3 d6"; "2. Zz9 e4"] = Ok st /\
    map record_move (ChessReview2.move_analysis st) = ["Nf3"; "d6"; "Zz9"; "e4"] /\
    ChessReview2.move_number st = 4.
Proof.
  destruct (ChessReview2.analyze_json_game_with_stockfish (Toy.scripted [] None) ∅
              Toy.start ["1. Nf3 d6"; "2. Zz9 e4"]) as [st | e] eqn:Hrun;
    [| vm_compute in Hrun; discriminate Hrun].
  exists st. split; [reflexivity |].
  destruct (json_one_record_per_token _ _ _ _ _ Hrun) as (Hmv & _ & Hn).
  split; [exact Hmv |].
  rewrite Hn. vm_compute in Hrun. injection Hrun as <-. reflexivity.
Defined.

(** X12.  After a completed run of either loop the numbers of the report
    add up: there are as many classifications in the three phase lists as
    analysed moves; both tallies are produced; and for every classification
    the tally of White and the tally of Black together are its number of
    occurrences in the three phase lists. *)
Theorem report_adds_up {Board : Type} `{BoardAPI Board}
    (engine : nat -> Board -> Info) (opening_book : gmap string string)
    (py_sum : list spec_float -> spec_float) (start : Board) :
  (forall mainline st white black,
     ChessReview.analyze_pgn_with_stockfish engine opening_book start mainline = Ok st ->
     accumulators_agree (ChessReview.classifications st) (ChessReview.phase_data st)
       (ChessReview.move_analysis st) /\
     exists report white_counts black_counts,
       pgn_report py_sum white black st = Some report /\
       report_moves report = ChessReview.move_analysis st /\
       player_counts (ChessReview.classifications st WHITE) = Some white_counts /\
       player_counts (ChessReview.classifications st BLACK) = Some black_counts /\
       forall c,
         default 0 (white_counts !! Classification_value c)
         + default 0 (black_counts !! Classification_value c)
         = occurrences c (moves_of (ChessReview.phase_data st))) /\
  (forall moves st white black,
     ChessReview2.analyze_json_game_with_stockfish engine opening_book start moves = Ok st ->
     accumulators_agree (ChessReview2.classifications st) (ChessReview2.phase_data st)
       (ChessReview2.move_analysis st) /\
     exists report white_counts black_counts,
       json_report py_sum white black st = Some report /\
       report_moves report = ChessReview2.move_analysis st /\
       player_counts (ChessReview2.classifications st WHITE) = Some white_counts /\
       player_counts (ChessReview2.classifications st BLACK) = Some black_counts /\
       forall c,
         default 0 (white_counts !! Classification_value c)
         + default 0 (black_counts !! Classification_value c)
         = occurrences c (moves_of (ChessReview2.phase_data st))).
Proof.
  assert (Hsum : forall cls pd ma,
            accumulators_agree cls pd ma ->
            forall cw cb,
              counts_of (fun c => occurrences c (moves_of (cls WHITE))) cw ->
              counts_of (fun c => occurrences c (moves_of (cls BLACK))) cb ->
              forall c,
                default 0 (cw !! Classification_value c)
                + default 0 (cb !! Classification_value c)
                = occurrences c (moves_of pd)).
  { intros cls pd ma [Hocc _] cw cb [Hw _] [Hb _] c.
    rewrite Hw, Hb. unfold moves_of.
    rewrite !occurrences_app, (Hocc OPENING), (Hocc MIDDLEGAME), (Hocc ENDGAME).
    cbn. lia. }
  split.
  - intros mainline st white black Hrun.
    assert (Hagree : accumulators_agree (ChessReview.classifications st)
                       (ChessReview.phase_data st) (ChessReview.move_analysis st)).
    { eapply pgn_loop_agree; [exact Hrun | apply accumulators_agree_initial]. }
    split; [exact Hagree |].
    destruct (player_counts_of (ChessReview.classifications st WHITE)) as (cw & Hw & Hcw).
    destruct (player_counts_of (ChessReview.classifications st BLACK)) as (cb & Hb & Hcb).
    unfold pgn_report, player_summaries. rewrite Hw, Hb.
    eexists _, cw, cb. repeat split. eapply Hsum; eauto.
  - intros moves st white black Hrun.
    unfold ChessReview2.analyze_json_game_with_stockfish in Hrun.
    rewrite line_loop_tokens in Hrun.
    assert (Hagree : accumulators_agree (ChessReview2.classifications st)
                       (ChessReview2.phase_data st) (ChessReview2.move_analysis st)).
    { eapply json_loop_agree; [exact Hrun | apply accumulators_agree_initial]. }
    split; [exact Hagree |].
    destruct (player_counts_of (ChessReview2.classifications st WHITE)) as (cw & Hw & Hcw).
    destruct (player_counts_of (ChessReview2.classifications st BLACK)) as (cb & Hb & Hcb).
    unfold json_report, player_summaries. rewrite Hw, Hb.
    eexists _, cw, cb. repeat split. eapply Hsum; eauto.
Qed.

(** X13.  Neither loop ever gives a move the classification Forced or
    Brilliant: after a completed run every recorded classification is one of
    Book, Best, Excellent, Good, Inaccuracy, Miss, Mistake, Blunder and
    Great, and the tallies of both players hold zero under ["forced"] and
    under ["brilliant"]. *)
Theorem never_forced_nor_brilliant {Board : Type} `{BoardAPI Board}
    (engine : nat -> Board -> Info) (opening_book : gmap string string)
    (start : Board) :
  (forall mainline st player,
     ChessReview.analyze_pgn_with_stockfish engine opening_book start mainline = Ok st ->
     (forall phase, Forall assigned (ChessReview.phase_data st phase)) /\
     (forall phase, Forall assigned (ChessReview.classifications st player phase)) /\
     exists counts,
       player_counts (ChessReview.classifications st player) = Some counts /\
       counts !! "forced" = Some 0 /\ counts !! "brilliant" = Some 0) /\
  (forall moves st player,
     ChessReview2.analyze_json_game_with_stockfish engine opening_book start moves = Ok st ->
     (forall phase, Forall assigned (ChessReview2.phase_data st phase)) /\
     (forall phase, Forall assigned (ChessReview2.classifications st player phase)) /\
     exists counts,
       player_counts (ChessReview2.classifications st player) = Some counts /\
       counts !! "forced" = Some 0 /\ counts !! "brilliant" = Some 0).
Proof.
  assert (Hzero : forall by_phase : GamePhase -> list Classification,
            (forall phase, Forall assigned (by_phase phase)) ->
            exists counts,
              player_counts by_phase = Some counts /\
              counts !! "forced" = Some 0 /\ counts !! "brilliant" = Some 0).
  { intros by_phase Ha.
    destruct (player_counts_of by_phase) as (counts & Hp & Hv & _).
    exists counts. split; [exact Hp |].
    assert (Hall : Forall assigned (moves_of by_phase)).
    { unfold moves_of. rewrite !Forall_app. auto. }
    apply assigned_occurrences in Hall as [Hf Hb].
    pose proof (Hv FORCED) as Hvf. pose proof (Hv BRILLIANT) as Hvb.
    cbn [Classification_value] in Hvf, Hvb. rewrite Hf in Hvf. rewrite Hb in Hvb.
    auto. }
  split.
  - intros mainline st player Hrun.
    apply pgn_loop_assigned in Hrun as [Hc Hp];
      [| intros; constructor | intros; constructor].
    split; [exact Hp |]. split; [apply Hc |]. apply Hzero, Hc.
  - intros moves st player Hrun.
    unfold ChessReview2.analyze_json_game_with_stockfish in Hrun.
    rewrite line_loop_tokens in Hrun.
    apply json_loop_assigned in Hrun as [Hc Hp];
      [| intros; constructor | intros; constructor].
    split; [exact Hp |]. split; [apply Hc |]. apply Hzero, Hc.
Qed.

(** ** More on the stages *)

Lemma int_le_mono (n1 n2 : Z) (t : spec_float) :
  n1 <= n2 -> PyFloat.int_le n2 t = true -> PyFloat.int_le n1 t = true.
Proof.
  intros Hn. destruct t as [s | s | | s m e]; cbn [PyFloat.int_le]; auto.
  - intros H2. apply Z.leb_le in H2. apply Z.leb_le. lia.
  - cbv zeta. destruct (0 <=? e) eqn:E; intros H2; apply Z.leb_le in H2; apply Z.leb_le.
    + lia.
    + assert (0 < 2 ^ (- e)) by (apply Z.pow_pos_nonneg; lia). nia.
Qed.

Lemma int_le_zero (t : spec_float) :
  PyFloat.leb PyFloat.zero t = true -> PyFloat.int_le 0 t = true.
Proof.
  destruct t as [s | s | | s m e]; cbn; try discriminate; auto.
  - destruct s; [discriminate | reflexivity].
  - destruct s; [discriminate |]. intros _.
    destruct (0 <=? e) eqn:E; apply Z.leb_le; [| lia].
    assert (0 < 2 ^ e) by (apply Z.pow_pos_nonneg; lia). nia.
Qed.

Lemma centipawn_loop_mono (cands : list Classification) (pre_eval loss1 loss2 : Z)
    (c1 c2 : Classification) :
  StronglySorted (fun a b => (severity a <= severity b)%nat) cands ->
  loss1 <= loss2 ->
  centipawn_loop cands pre_eval loss1 = Ok (Some c1) ->
  centipawn_loop cands pre_eval loss2 = Ok (Some c2) ->
  (severity c1 <= severity c2)%nat.
Proof.
  intros Hs Hl. induction Hs as [| c0 cands Hs IH Hall]; cbn [centipawn_loop];
    [discriminate |].
  destruct (get_evaluation_loss_threshold c0 pre_eval) as [t | e]; cbn [bind];
    [| discriminate].
  destruct (PyFloat.int_le loss2 t) eqn:E2.
  - rewrite (int_le_mono _ _ _ Hl E2). intros [= <-] [= <-]. lia.
  - destruct (PyFloat.int_le loss1 t).
    + intros [= <-] H2. apply centipawn_loop_in in H2.
      rewrite Forall_forall in Hall. apply Hall, list_elem_of_In, H2.
    + apply IH.
Qed.

Lemma centipawn_classifications_sorted :
  StronglySorted (fun a b => (severity a <= severity b)%nat) centipawn_classifications.
Proof. unfold centipawn_classifications. repeat constructor; cbn; lia. Qed.

(** X14.  At one evaluation before the move, a larger loss never gets a
    better classification from the threshold stage: with
    [loss1 <= loss2], what [loss2] gets is the same as what [loss1] gets or
    comes after it in the list Best, Excellent, Good, Inaccuracy, Miss,
    Mistake, Blunder. *)
Theorem larger_loss_is_not_better (book_move : option string)
    (pre_eval loss1 loss2 : Z) (c1 c2 : Classification) :
  truthy book_move = false ->
  loss1 <= loss2 ->
  initial_classification book_move pre_eval loss1 = Ok c1 ->
  initial_classification book_move pre_eval loss2 = Ok c2 ->
  (severity c1 <= severity c2)%nat.
Proof.
  intros Hb Hl. unfold initial_classification. rewrite Hb.
  intros H1 H2.
  apply bind_ok in H1 as (o1 & H1 & [= <-]).
  apply bind_ok in H2 as (o2 & H2 & [= <-]).
  destruct o1 as [c1 |], o2 as [c2 |]; cbn [default].
  - eapply centipawn_loop_mono; eauto using centipawn_classifications_sorted.
  - apply centipawn_loop_in in H1. cbn in H1.
    repeat (destruct H1 as [<- | H1]; [cbn; lia |]). destruct H1.
  - revert H1. change centipawn_classifications with (candidates ++ [BLUNDER]).
    rewrite centipawn_loop_app.
    destruct (centipawn_loop candidates pre_eval loss1) as [[c |] | e];
      cbn; discriminate.
  - lia.
Qed.

Lemma larger_loss_is_not_better_witness :
  truthy None = false /\ 100 <= 350 /\
  initial_classification None 600 100 = Ok EXCELLENT /\
  initial_classification None 600 350 = Ok INACCURACY /\
  (severity EXCELLENT <= severity INACCURACY)%nat.
Proof.
  assert (Hb : truthy None = false) by reflexivity.
  assert (Hl : 100 <= 350) by lia.
  assert (H1 : initial_classification None 600 100 = Ok EXCELLENT)
    by (vm_compute; reflexivity).
  assert (H2 : initial_classification None 600 350 = Ok INACCURACY)
    by (vm_compute; reflexivity).
  split; [exact Hb |]. split; [exact Hl |]. split; [exact H1 |]. split; [exact H2 |].
  exact (larger_loss_is_not_better None 600 100 350 EXCELLENT INACCURACY Hb Hl H1 H2).
Defined.

Lemma best_at_zero_loss (pre_eval : Z) :
  pre_eval ^ 2 < PyFloat.overflow_bound ->
  initial_classification None pre_eval 0 = Ok BEST.
Proof.
  intros Hlt. unfold initial_classification. cbn [truthy].
  unfold centipawn_classifications. cbn [centipawn_loop].
  pose proof (threshold_nonneg BEST pre_eval (or_introl eq_refl)) as Ht.
  destruct (get_evaluation_loss_threshold BEST pre_eval) as [t | e].
  - destruct Ht as [_ Ht]. cbn [bind]. rewrite (int_le_zero _ Ht). reflexivity.
  - destruct Ht as [_ Hge]. lia.
Qed.

(** X15.  A move that is not a book move and leaves the evaluation as it
    was is classified Best by both loops, whenever the score before the
    move is not a mate score (and its square is a finite float): the loss is
    zero, no threshold is below zero, and neither the missed-win test nor the
    brilliancy test can fire. *)
Theorem unchanged_evaluation_is_best (book_move : option string) (pre_info : Info)
    (pre_eval : Z) (move : Move) (token : string) (best_move : option Move) :
  truthy book_move = false ->
  pre_eval ^ 2 < PyFloat.overflow_bound ->
  PovScore.is_mate (info_score pre_info) = false ->
  ChessReview.classify book_move pre_info pre_eval pre_eval move best_move = Ok BEST /\
  ChessReview2.classify book_move pre_info pre_eval pre_eval token best_move = Ok BEST.
Proof.
  intros Hb Hlt Hm. unfold ChessReview.classify, ChessReview2.classify.
  cbv zeta. rewrite Z.sub_diag. change (Z.abs 0) with 0.
  rewrite (initial_classification_not_book _ _ _ Hb), (best_at_zero_loss _ Hlt).
  cbn [bind]. unfold missed_opportunity, is_forced_win. rewrite Hm.
  change (MISS_CENTIPAWN_LOSS <=? 0) with false. cbn [orb andb].
  rewrite !andb_false_r.
  unfold brilliant_check. rewrite bool_decide_eq_true_2 by reflexivity.
  destruct (pre_eval <? -150) eqn:E1, (150 <=? pre_eval) eqn:E2; cbn [andb];
    try lia;
    destruct (pre_eval <? -300) eqn:E3, (300 <=? pre_eval) eqn:E4; cbn [andb];
    try lia; split; reflexivity.
Qed.

Lemma unchanged_evaluation_is_best_witness :
  truthy None = false /\ 40 ^ 2 < PyFloat.overflow_bound /\
  PovScore.is_mate (info_score (cp_info 40 WHITE None)) = false /\
  ChessReview.classify None (cp_info 40 WHITE None) 40 40 (Toy.mv 6 21) None = Ok BEST.
Proof.
  assert (Hb : truthy None = false) by reflexivity.
  assert (Hlt : 40 ^ 2 < PyFloat.overflow_bound) by reflexivity.
  assert (Hm : PovScore.is_mate (info_score (cp_info 40 WHITE None)) = false)
    by reflexivity.
  split; [exact Hb |]. split; [exact Hlt |]. split; [exact Hm |].
  destruct (unchanged_evaluation_is_best None (cp_info 40 WHITE None) 40
              (Toy.mv 6 21) "Nf3" None Hb Hlt Hm) as [Hpgn _].
  exact Hpgn.
Defined.

Lemma brilliant_check_great (m : Classification) (pre_eval post_eval : Z) :
  brilliant_check m pre_eval post_eval = GREAT -> m <> GREAT ->
  m = BEST /\ pre_eval < -150 /\ 150 <= post_eval.
Proof.
  unfold brilliant_check. case_bool_decide as E; [| congruence].
  intros Hg _. split; [exact E |].
  destruct (pre_eval <? -150) eqn:E1, (150 <=? post_eval) eqn:E2; cbn [andb] in Hg;
    try lia;
    destruct (pre_eval <? -300) eqn:E3, (300 <=? post_eval) eqn:E4; cbn [andb] in Hg;
    try lia; try discriminate; congruence.
Qed.

Lemma stages_great (book_move : option string) (pre_info : Info)
    (pre_eval post_eval : Z) (not_best : bool) (c0 : Classification) :
  initial_classification book_move pre_eval (Z.abs (pre_eval - post_eval)) = Ok c0 ->
  brilliant_check
    (missed_opportunity c0 pre_info pre_eval (Z.abs (pre_eval - post_eval)) not_best)
    pre_eval post_eval = GREAT ->
  pre_eval < -150 /\ 150 <= post_eval /\ truthy book_move = false.
Proof.
  intros Hi Hg.
  pose proof (initial_classification_assigned _ _ _ _ Hi) as (_ & Hng & _).
  apply brilliant_check_great in Hg as (Hbest & Hpre & Hpost).
  - repeat split; auto. unfold missed_opportunity in Hbest.
    destruct (_ && _ && _); [discriminate |]. subst c0.
    destruct (truthy book_move) eqn:Hb; [| reflexivity].
    rewrite (initial_classification_book _ _ _ Hb) in Hi. discriminate.
  - unfold missed_opportunity. destruct (_ && _ && _); [discriminate | exact Hng].
Qed.

(** X16.  Great is given only for a rise of the evaluation as seen from
    White: when either loop classifies a move as Great, the move is not a
    book move, the evaluation before it was below -150 and the one after it
    is at least 150.  So a move after which the evaluation is below 150 is
    never Great, whatever it did for Black. *)
Theorem great_only_for_a_rise (book_move : option string) (pre_info : Info)
    (pre_eval post_eval : Z) (move : Move) (token : string) (best_move : option Move) :
  ChessReview.classify book_move pre_info pre_eval post_eval move best_move = Ok GREAT \/
  ChessReview2.classify book_move pre_info pre_eval post_eval token best_move = Ok GREAT ->
  pre_eval < -150 /\ 150 <= post_eval /\ truthy book_move = false.
Proof.
  unfold ChessReview.classify, ChessReview2.classify.
  intros [Hc | Hc]; apply bind_ok in Hc as (c0 & Hi & [= Hg]);
    eapply stages_great; eauto.
Qed.

Lemma great_only_for_a_rise_witness :
  ChessReview.classify None (cp_info (-9997) WHITE (Some (Toy.mv 12 28)))
    (-9997) 150 (Toy.mv 12 28) (Some (Toy.mv 12 28)) = Ok GREAT /\
  -9997 < -150 /\ 150 <= 150 /\ truthy None = false.
Proof.
  assert (Hc : ChessReview.classify None (cp_info (-9997) WHITE (Some (Toy.mv 12 28)))
                 (-9997) 150 (Toy.mv 12 28) (Some (Toy.mv 12 28)) = Ok GREAT)
    by (vm_compute; reflexivity).
  split; [exact Hc |].
  exact (great_only_for_a_rise None (cp_info (-9997) WHITE (Some (Toy.mv 12 28)))
           (-9997) 150 (Toy.mv 12 28) "e4" (Some (Toy.mv 12 28)) (or_introl Hc)).
Defined.

Lemma is_book_move_truthy {Board : Type} `{BoardAPI Board} (board : Board)
    (opening_book : gmap string string) (max_depth : Z) :
  truthy (is_book_move board opening_book max_depth) = true ->
  fullmove_number board <= max_depth /\ is_Some (opening_book !! fen_key board).
Proof.
  unfold is_book_move. destruct (max_depth <? fullmove_number board) eqn:E;
    [discriminate |].
  destruct (opening_book !! fen_key board) as [v |]; [| discriminate].
  intros _. split; [lia | eauto].
Qed.

(** X17.  The PGN loop records a move as a book move only when the
    position the move leads to is in the book and the full-move number of
    that position is at most 8. *)
Theorem pgn_book_only_within_depth {Board : Type} `{BoardAPI Board}
    (engine : nat -> Board -> Info) (opening_book : gmap string string)
    (st : ChessReview.State) (move_number : Z) (move : Move) (st' : ChessReview.State) :
  ChessReview.body engine opening_book st move_number move = Ok st' ->
  ChessReview.phase_data st' (ChessReview.phase_of st move) =
    ChessReview.phase_data st (ChessReview.phase_of st move) ++ [BOOK] ->
  fullmove_number (push (ChessReview.board st) move) <= 8 /\
  is_Some (opening_book !! fen_key (push (ChessReview.board st) move)).
Proof.
  intros Hb Hrec.
  apply pgn_body_inv in Hb as (best & c & ev & evl & Hc & _ & _ & _ & Hpd & _).
  rewrite Hpd, append_at_same in Hrec. apply app_inv_head in Hrec as [= ->].
  apply pgn_classify_assigned in Hc as [_ Hbook].
  apply is_book_move_truthy, Hbook. reflexivity.
Qed.

Lemma pgn_book_only_within_depth_witness :
  exists st',
    ChessReview.body (Toy.scripted [] None) one_line_book (ChessReview.initial Toy.start) 1
      (Toy.mv 6 21) = Ok st' /\
    ChessReview.phase_data st' OPENING = [BOOK] /\
    fullmove_number (push Toy.start (Toy.mv 6 21)) <= 8 /\
    is_Some (one_line_book !! fen_key (push Toy.start (Toy.mv 6 21))).
Proof.
  destruct (ChessReview.body (Toy.scripted [] None) one_line_book (ChessReview.initial Toy.start) 1
              (Toy.mv 6 21)) as [st' | e] eqn:Hrun;
    [| vm_compute in Hrun; discriminate Hrun].
  assert (Hrec : ChessReview.phase_data st' OPENING = [BOOK])
    by (vm_compute in Hrun; injection Hrun as <-; reflexivity).
  exists st'. split; [reflexivity |]. split; [exact Hrec |].
  exact (pgn_book_only_within_depth (Toy.scripted [] None) one_line_book
           (ChessReview.initial Toy.start) 1 (Toy.mv 6 21) st' Hrun Hrec).
Defined.

(** X18.  The JSON loop records a token as a book move only when the
    position it leads to is in the book and the full-move number of that
    position is at most 8. *)
Theorem json_book_only_within_depth {Board : Type} `{BoardAPI Board}
    (engine : nat -> Board -> Info) (opening_book : gmap string string)
    (st : ChessReview2.State) (token : string) (st' : ChessReview2.State)
    (board' : Board) :
  ChessReview2.body engine opening_book st token = Ok st' ->
  push_san (ChessReview2.board st) token = inr board' ->
  ChessReview2.phase_data st' (ChessReview2.phase_of st board') =
    ChessReview2.phase_data st (ChessReview2.phase_of st board') ++ [BOOK] ->
  fullmove_number board' <= 8 /\ is_Some (opening_book !! fen_key board').
Proof.
  intros Hb Hp Hrec.
  apply json_body_inv in Hb. rewrite Hp in Hb.
  destruct Hb as (best & c & ev & evl & Hc & _ & _ & _ & Hpd & _).
  rewrite Hpd, append_at_same in Hrec. apply app_inv_head in Hrec as [= ->].
  apply json_classify_assigned in Hc as [_ Hbook].
  apply is_book_move_truthy, Hbook. reflexivity.
Qed.

Lemma json_book_only_within_depth_witness :
  exists st',
    ChessReview2.body (Toy.scripted [] None) one_line_book (ChessReview2.initial Toy.start)
      "Nf3" = Ok st' /\
    ChessReview2.phase_data st' OPENING = [BOOK] /\
    fullmove_number (push Toy.start (Toy.mv 6 21)) <= 8 /\
    is_Some (one_line_book !! fen_key (push Toy.start (Toy.mv 6 21))).
Proof.
  destruct (ChessReview2.body (Toy.scripted [] None) one_line_book (ChessReview2.initial Toy.start)
              "Nf3") as [st' | e] eqn:Hrun;
    [| vm_compute in Hrun; discriminate Hrun].
  assert (Hrec : ChessReview2.phase_data st' OPENING = [BOOK])
    by (vm_compute in Hrun; injection Hrun as <-; reflexivity).
  assert (Hp : push_san (ChessReview2.board (ChessReview2.initial Toy.start)) "Nf3"
               = inr (push Toy.start (Toy.mv 6 21))) by (vm_compute; reflexivity).
  exists st'. split; [reflexivity |]. split; [exact Hrec |].
  exact (json_book_only_within_depth (Toy.scripted [] None) one_line_book
           (ChessReview2.initial Toy.start) "Nf3" st' _ Hrun Hp Hrec).
Defined.

Section PhaseMaterial.
Context {Board : Type} `{BoardAPI Board}.

Lemma detect_game_phase_endgame (board : Board) :
  detect_game_phase board false = ENDGAME <->
  total_material board <= 24 \/ (queens board = 0 /\ total_material board <= 48).
Proof.
  unfold detect_game_phase. rewrite material_loops.
  unfold ENDGAME_MATERIAL_THRESHOLD. cbn [existsb id].
  destruct (total_material board <=? 24) eqn:E1, (queens board =? 0) eqn:E2,
    (total_material board <=? 24 * 2) eqn:E3; cbn [orb andb];
    split; intros; try reflexivity; try discriminate; lia.
Qed.

(** X19.  Taking pieces off the board never leads out of the endgame: if
    a board has, for every piece type and colour, at most as many pieces as
    a board that [detect_game_phase] calls an endgame (the opening flag
    being clear), it is an endgame too. *)
Theorem endgame_stays_with_less_material (board1 board2 : Board) :
  (forall piece_type color, count board2 piece_type color <= count board1 piece_type color) ->
  detect_game_phase board1 false = ENDGAME ->
  detect_game_phase board2 false = ENDGAME.
Proof.
  intros Hle. rewrite !detect_game_phase_endgame.
  assert (Hm : total_material board2 <= total_material board1).
  { unfold total_material, material_of.
    pose proof (Hle PAWN WHITE). pose proof (Hle KNIGHT WHITE).
    pose proof (Hle BISHOP WHITE). pose proof (Hle ROOK WHITE).
    pose proof (Hle QUEEN WHITE). pose proof (Hle PAWN BLACK).
    pose proof (Hle KNIGHT BLACK). pose proof (Hle BISHOP BLACK).
    pose proof (Hle ROOK BLACK). pose proof (Hle QUEEN BLACK). lia. }
  assert (Hq : 0 <= queens board2 <= queens board1).
  { unfold queens. pose proof (Hle QUEEN WHITE). pose proof (Hle QUEEN BLACK).
    unfold count in *. lia. }
  intros [H1 | [H1 H2]]; [left | right]; lia.
Qed.

End PhaseMaterial.

Lemma endgame_stays_with_less_material_witness :
  (forall piece_type color,
     count bare_kings piece_type color <= count rook_ending piece_type color) /\
  detect_game_phase rook_ending false = ENDGAME /\
  detect_game_phase bare_kings false = ENDGAME.
Proof.
  assert (Hle : forall piece_type color,
             count bare_kings piece_type color <= count rook_ending piece_type color)
    by (intros [] []; vm_compute; discriminate).
  assert (He : detect_game_phase rook_ending false = ENDGAME) by (vm_compute; reflexivity).
  split; [exact Hle |]. split; [exact He |].
  exact (endgame_stays_with_less_material rook_ending bare_kings Hle He).
Defined.

